(** * New manager bounce: labelling, points and points-per-game

    A shallow embedding of [New_manager_bounce_PL.py].  The script works on
    pandas data frames; a frame is modelled as its rows in order (each row
    carries its index label and the five match columns the script reads)
    together with the remaining integer columns in frame order.  Code that
    can raise returns a [result]. *)

From Stdlib Require Import ZArith String List Bool Lia QArith Sorted Permutation.
Import ListNotations.
Local Open Scope string_scope.
Local Open Scope list_scope.
Local Open Scope Z_scope.

(** ** Exceptions *)

Inductive exception : Type :=
| IndexError
| KeyError (column : string)
| UnboundLocalError (name : string).

Inductive result (A : Type) : Type :=
| Ok (a : A)
| Raise (e : exception).

Arguments Ok {A} a.
Arguments Raise {A} e.

Definition bind {A B : Type} (r : result A) (k : A -> result B) : result B :=
  match r with
  | Ok a => k a
  | Raise e => Raise e
  end.

Notation "x <- r ;; k" := (bind r (fun x => k))
  (at level 61, r at next level, right associativity).

(** ** Data frames *)

(** A pandas [Timestamp].  Every match date is a calendar day at midnight;
    the examples write the day [yyyy-mm-dd] as the integer [yyyymmdd], which
    orders days the way timestamps are ordered. *)
Abbreviation Timestamp := Z (only parsing).

Record Match : Type := mkMatch {
  match_date : Timestamp;
  home_team : string;
  away_team : string;
  home_score : Z;
  away_score : Z
}.

(** [rows] pairs each row with its index label, in frame order, as
    [df.iterrows()] yields them; [columns] holds the other columns by name. *)
Record DataFrame : Type := mkDataFrame {
  rows : list (Z * Match);
  columns : list (string * list Z)
}.

Definition len (df : DataFrame) : nat := length (rows df).

(** [df["match_date"]] *)
Definition col_match_date (df : DataFrame) : list Timestamp :=
  map (fun r => match_date (snd r)) (rows df).

(** [df.index] *)
Definition index (df : DataFrame) : list Z := map fst (rows df).

Fixpoint get_column (cols : list (string * list Z)) (name : string) : option (list Z) :=
  match cols with
  | [] => None
  | (c, v) :: rest => if String.eqb c name then Some v else get_column rest name
  end.

Definition has_column (cols : list (string * list Z)) (name : string) : bool :=
  existsb (fun cv => String.eqb (fst cv) name) cols.

(** [df[name]] for a derived column; a missing column is a [KeyError]. *)
Definition getitem (df : DataFrame) (name : string) : result (list Z) :=
  match get_column (columns df) name with
  | Some v => Ok v
  | None => Raise (KeyError name)
  end.

(** [df[name] = values]: an existing column is replaced where it stands, a
    new one is appended after the others. *)
Definition set_column (df : DataFrame) (name : string) (values : list Z) : DataFrame :=
  {| rows := rows df;
     columns :=
       if has_column (columns df) name
       then map (fun cv => if String.eqb (fst cv) name then (fst cv, values) else cv)
                (columns df)
       else columns df ++ [(name, values)] |}.

Fixpoint map2 {A B C : Type} (f : A -> B -> C) (l : list A) (m : list B) : list C :=
  match l, m with
  | a :: l', b :: m' => f a b :: map2 f l' m'
  | _, _ => []
  end.

(** [df.loc[label, name] = v]: the write goes by index label, so it reaches
    every row that carries [label]. *)
Definition loc_set (df : DataFrame) (label : Z) (name : string) (v : Z) : DataFrame :=
  {| rows := rows df;
     columns :=
       map (fun cv =>
              if String.eqb (fst cv) name
              then (fst cv,
                    map2 (fun r old => if fst r =? label then v else old)
                         (rows df) (snd cv))
              else cv)
           (columns df) |}.

(** ** Series operations *)

(** [s > d], [s >= d], [s < d], [s <= d] on a date series. *)
Definition Series_gt (s : list Timestamp) (d : Timestamp) : list bool :=
  map (fun x => d <? x) s.
Definition Series_ge (s : list Timestamp) (d : Timestamp) : list bool :=
  map (fun x => d <=? x) s.
Definition Series_lt (s : list Timestamp) (d : Timestamp) : list bool :=
  map (fun x => x <? d) s.
Definition Series_le (s : list Timestamp) (d : Timestamp) : list bool :=
  map (fun x => x <=? d) s.

(** [a | b] and [a & b] on boolean series. *)
Definition mask_or (a b : list bool) : list bool := map2 orb a b.
Definition mask_and (a b : list bool) : list bool := map2 andb a b.

(** [s[mask]] *)
Fixpoint boolean_index {A : Type} (s : list A) (mask : list bool) : list A :=
  match s, mask with
  | x :: s', b :: mask' =>
      if b then x :: boolean_index s' mask' else boolean_index s' mask'
  | _, _ => []
  end.

(** [s.iloc[i]]: a negative position counts from the end, a position outside
    the series raises [IndexError]. *)
Definition iloc {A : Type} (s : list A) (i : Z) : result A :=
  let n := Z.of_nat (length s) in
  if (i <? - n) || (n <=? i) then Raise IndexError
  else
    match nth_error s (Z.to_nat (if i <? 0 then i + n else i)) with
    | Some x => Ok x
    | None => Raise IndexError
    end.

(** [np.select(condlist, choicelist)] over [n] rows: the choice of the first
    condition that holds, and the default 0 where none does. *)
Fixpoint np_select (n : nat) (cond_choice : list (list bool * Z)) : list Z :=
  match cond_choice with
  | [] => repeat 0 n
  | (cond, choice) :: rest =>
      map2 (fun (b : bool) (other : Z) => if b then choice else other)
           cond (np_select n rest)
  end.

(** ** Bounce labeller *)

Definition add_managerial_change_column (df : DataFrame)
    (first_manager_hire_date second_manager_hire_date : Timestamp)
    (number_hired_managers number_of_matches_in_bounce : Z) : result DataFrame :=
  let md := col_match_date df in
  if number_hired_managers =? 1 then
    last_match_date_of_bounce <-
      iloc (boolean_index md (Series_gt md first_manager_hire_date))
           (number_of_matches_in_bounce - 1) ;;
    let not_bounce_condition :=
      mask_or (Series_lt md first_manager_hire_date)
              (Series_gt md last_match_date_of_bounce) in
    let is_bounce_condition :=
      mask_and (Series_ge md first_manager_hire_date)
               (Series_le md last_match_date_of_bounce) in
    Ok (set_column df "is_manager_bounce"
          (np_select (len df) [(not_bounce_condition, 0); (is_bounce_condition, 1)]))
  else if number_hired_managers =? 2 then
    last_match_date_of_first_bounce <-
      iloc (boolean_index md (Series_ge md first_manager_hire_date))
           (number_of_matches_in_bounce - 1) ;;
    last_match_date_of_second_bounce <-
      iloc (boolean_index md (Series_ge md second_manager_hire_date))
           (number_of_matches_in_bounce - 1) ;;
    let not_bounce_condition :=
      mask_or
        (mask_or (Series_lt md first_manager_hire_date)
                 (mask_and (Series_gt md last_match_date_of_first_bounce)
                           (Series_lt md second_manager_hire_date)))
        (Series_gt md last_match_date_of_second_bounce) in
    let is_bounce_condition :=
      mask_or
        (mask_and (Series_ge md first_manager_hire_date)
                  (Series_le md last_match_date_of_first_bounce))
        (mask_and (Series_ge md second_manager_hire_date)
                  (Series_le md last_match_date_of_second_bounce)) in
    Ok (set_column df "is_manager_bounce"
          (np_select (len df) [(not_bounce_condition, 0); (is_bounce_condition, 1)]))
  else Ok df.

(** ** Points calculator *)

(** The body of the [for index, row in df.iterrows()] loop. *)
Definition points_step (team_name : string) (df : DataFrame) (ir : Z * Match) : DataFrame :=
  let index := fst ir in
  let row := snd ir in
  let home_team_name := home_team row in
  let away_team_name := away_team row in
  let home_team_score := home_score row in
  let away_team_score := away_score row in
  if String.eqb home_team_name team_name then
    if home_team_score >? away_team_score then loc_set df index "points_from_match" 3
    else if home_team_score =? away_team_score then loc_set df index "points_from_match" 1
    else loc_set df index "points_from_match" 0
  else if String.eqb away_team_name team_name then
    if away_team_score >? home_team_score then loc_set df index "points_from_match" 3
    else if home_team_score =? away_team_score then loc_set df index "points_from_match" 1
    else loc_set df index "points_from_match" 0
  else df.

Definition add_points_from_match_column (df : DataFrame) (team_name : string) : DataFrame :=
  let df0 := set_column df "points_from_match" (repeat 0 (len df)) in
  fold_left (points_step team_name) (rows df0) df0.

(** ** Match loader and team match extractor *)

(** The data provider: [competitions()] and
    [matches(competition_id, season_id)]. *)
Record Competition : Type := mkCompetition {
  competition_id : Z;
  season_id : Z;
  competition_name : string;
  season_name : string
}.

Record StatsBomb : Type := mkStatsBomb {
  competitions : list Competition;
  matches : Z -> Z -> DataFrame
}.

(** [df[mask]] on a whole frame. *)
Definition df_boolean_index (df : DataFrame) (mask : list bool) : DataFrame :=
  {| rows := boolean_index (rows df) mask;
     columns := map (fun cv => (fst cv, boolean_index (snd cv) mask)) (columns df) |}.

Fixpoint insert_by_date (p : nat * Timestamp) (l : list (nat * Timestamp))
  : list (nat * Timestamp) :=
  match l with
  | [] => [p]
  | q :: l' => if snd p <=? snd q then p :: l else q :: insert_by_date p l'
  end.

(** The row positions in ascending key order; rows with equal keys keep
    their relative order. *)
Definition argsort (keys : list Timestamp) : list nat :=
  map fst (fold_right insert_by_date [] (combine (seq 0 (length keys)) keys)).

Definition gather {A : Type} (pos : list nat) (l : list A) : list A :=
  flat_map (fun p => match nth_error l p with Some x => [x] | None => [] end) pos.

(** [df.sort_values(by="match_date")] *)
Definition sort_values_by_match_date (df : DataFrame) : DataFrame :=
  let pos := argsort (col_match_date df) in
  {| rows := gather pos (rows df);
     columns := map (fun cv => (fst cv, gather pos (snd cv))) (columns df) |}.

(** [(competitions_df['competition_name'] == league) &
     (competitions_df['season_name'] == season)] on one row. *)
Definition is_league_season (league season : string) (c : Competition) : bool :=
  String.eqb (competition_name c) league && String.eqb (season_name c) season.

Definition SB_load_matches_from_season (sb : StatsBomb) (league_name season_name : string)
  : result DataFrame :=
  let competitions_df := competitions sb in
  let selected := filter (is_league_season league_name season_name) competitions_df in
  comp_id <- iloc (map competition_id selected) 0 ;;
  seas_id <- iloc (map season_id selected) 0 ;;
  Ok (sort_values_by_match_date (matches sb comp_id seas_id)).

(** The provider's dates are ISO day strings, which [pd.to_datetime] turns
    into timestamps; the model holds them as timestamps from the start. *)
Definition extract_teams_matches_during_season (sb : StatsBomb)
    (league_name season_name team_name : string) : result DataFrame :=
  all_matches <- SB_load_matches_from_season sb league_name season_name ;;
  let team_matches :=
    df_boolean_index all_matches
      (mask_or (map (fun r => String.eqb (home_team (snd r)) team_name) (rows all_matches))
               (map (fun r => String.eqb (away_team (snd r)) team_name) (rows all_matches))) in
  Ok (sort_values_by_match_date team_matches).

(** ** The labelling-and-points pipeline *)

Definition add_manager_change_and_points_won_columns_to_df (sb : StatsBomb)
    (team_name : string) (first_manager_hire_date second_manager_hire_date : Timestamp)
    (number_hired_managers number_of_matches_in_bounce : Z) : result DataFrame :=
  match_df <- extract_teams_matches_during_season sb "Premier League" "2015/2016" team_name ;;
  match_df <- add_managerial_change_column match_df first_manager_hire_date
                second_manager_hire_date number_hired_managers
                number_of_matches_in_bounce ;;
  Ok (add_points_from_match_column match_df team_name).

(** The defaults of the keyword arguments. *)
Definition default_second_manager_hire_date : Timestamp := 17530101.
Definition default_number_of_matches_in_bounce : Z := 5.

(** ** Points per game *)

(** [df.loc[df["is_manager_bounce"] == label, "points_from_match"].tolist()] *)
Definition points_where (df : DataFrame) (label : Z) : result (list Z) :=
  is_manager_bounce <- getitem df "is_manager_bounce" ;;
  points_from_match <- getitem df "points_from_match" ;;
  Ok (boolean_index points_from_match (map (fun b => b =? label) is_manager_bounce)).

Definition sum (l : list Z) : Z := fold_right Z.add 0 l.

(** [np.mean]: the sum over the number of values, and nan ([None]) for no
    values.  numpy returns the float nearest to this quotient; the model
    keeps the quotient itself. *)
Definition np_mean (l : list Z) : option Q :=
  match l with
  | [] => None
  | _ :: _ => Some (Qmake (sum l) (Pos.of_nat (length l)))
  end.

(** A float that may be nan: the rational it stands for, or [None].  Every
    comparison with nan is false. *)
Definition float_lt (a b : option Q) : bool :=
  match a, b with
  | Some x, Some y => match Qcompare x y with Lt => true | _ => false end
  | _, _ => false
  end.

Definition float_gt (a b : option Q) : bool := float_lt b a.

Definition float_ge (a b : option Q) : bool :=
  match a, b with
  | Some x, Some y => match Qcompare x y with Lt => false | _ => true end
  | _, _ => false
  end.

Definition float_eq (a b : option Q) : bool :=
  match a, b with
  | Some x, Some y => match Qcompare x y with Eq => true | _ => false end
  | _, _ => false
  end.

(** The float written [0.05]. *)
Definition alpha : Q := 3602879701896397 # 72057594037927936.

Inductive colour : Type := green | red | yellow.

(** What the bar chart shows: the two bar heights (bounce, non-bounce), the
    [N_matches=] annotation inside each bar, the colours of the two bars and
    which of the two titles it carries ([true]: the PPG is statistically
    larger during the bounce).  The printed line and the number formats are
    left out. *)
Record Chart : Type := mkChart {
  bar_heights : option Q * option Q;
  n_matches : nat * nat;
  color_list : colour * colour;
  hypothesis_title : bool
}.

(** The three colour branches.  When none of them is taken [color_list] is
    never assigned, and the call of [ax.bar] that reads it raises. *)
Definition choose_colors (ppg_bounce ppg_no_bounce : option Q) : result (colour * colour) :=
  if float_gt ppg_bounce ppg_no_bounce then Ok (green, red)
  else if float_gt ppg_no_bounce ppg_bounce then Ok (red, green)
  else if float_eq ppg_bounce ppg_no_bounce then Ok (yellow, yellow)
  else Raise (UnboundLocalError "color_list").

(** The two [.tolist()] lines that follow every run of the pipeline. *)
Definition bounce_and_non_bounce_points (sb : StatsBomb) (team_name : string)
    (first_manager_hire_date second_manager_hire_date : Timestamp)
    (number_hired_managers number_of_matches_in_bounce : Z)
  : result (list Z * list Z) :=
  matches <- add_manager_change_and_points_won_columns_to_df sb team_name
               first_manager_hire_date second_manager_hire_date
               number_hired_managers number_of_matches_in_bounce ;;
  points_bounce <- points_where matches 1 ;;
  points_non_bounce <- points_where matches 0 ;;
  Ok (points_bounce, points_non_bounce).

(** [ttest_ind] stands for scipy's test with [alternative="greater"]: it
    gives the p-value, which may be nan. *)
Definition plot_teams_points_per_game_diff (ttest_ind : list Z -> list Z -> option Q)
    (sb : StatsBomb) (team_name : string)
    (first_manager_hire_date second_manager_hire_date : Timestamp)
    (number_hired_managers number_of_matches_in_bounce : Z) : result Chart :=
  groups <- bounce_and_non_bounce_points sb team_name first_manager_hire_date
              second_manager_hire_date number_hired_managers
              number_of_matches_in_bounce ;;
  let points_bounce := fst groups in
  let points_non_bounce := snd groups in
  let ppg_bounce := np_mean points_bounce in
  let ppg_no_bounce := np_mean points_non_bounce in
  let p_value := ttest_ind points_bounce points_non_bounce in
  let title := if float_lt p_value (Some alpha) then true else false in
  colors <- choose_colors ppg_bounce ppg_no_bounce ;;
  Ok {| bar_heights := (ppg_bounce, ppg_no_bounce);
        n_matches := (length points_bounce, length points_non_bounce);
        color_list := colors;
        hypothesis_title := title |}.

(** The six blocks of [plot_overall_points_per_game_diff], in the order of
    the source: team, first hire date, second hire date, number of hired
    managers. *)
Record ManagerialChange : Type := mkChange {
  team : string;
  first_hire : Timestamp;
  second_hire : Timestamp;
  hired_managers : Z
}.

Definition managerial_changes : list ManagerialChange :=
  [ mkChange "Sunderland" 20151009 default_second_manager_hire_date 1;
    mkChange "Liverpool" 20151009 default_second_manager_hire_date 1;
    mkChange "Swansea City" 20151209 20160118 2;
    mkChange "Aston Villa" 20151102 20160329 2;
    mkChange "Chelsea" 20151220 default_second_manager_hire_date 1;
    mkChange "Newcastle United" 20160311 default_second_manager_hire_date 1 ].

Definition run_change (sb : StatsBomb) (c : ManagerialChange) : result DataFrame :=
  add_manager_change_and_points_won_columns_to_df sb (team c) (first_hire c)
    (second_hire c) (hired_managers c) default_number_of_matches_in_bounce.

Fixpoint for_each {A B : Type} (f : A -> result B) (l : list A) : result (list B) :=
  match l with
  | [] => Ok []
  | a :: l' => b <- f a ;; bs <- for_each f l' ;; Ok (b :: bs)
  end.

(** The two title branches of the overall plot, [if p_value < 0.05] and
    [elif p_value >= 0.05]: with a nan p-value neither is taken and the
    title is never assigned. *)
Definition choose_title (p_value : option Q) : result bool :=
  if float_lt p_value (Some alpha) then Ok true
  else if float_ge p_value (Some alpha) then Ok false
  else Raise (UnboundLocalError "hypothesis_title").

Definition plot_overall_points_per_game_diff (ttest_ind : list Z -> list Z -> option Q)
    (sb : StatsBomb) : result Chart :=
  groups <-
    for_each (fun c =>
                matches <- run_change sb c ;;
                points_bounce <- points_where matches 1 ;;
                points_no_bounce <- points_where matches 0 ;;
                Ok (points_bounce, points_no_bounce))
             managerial_changes ;;
  let all_bounce_matches := concat (map fst groups) in
  let all_no_bounce_matches := concat (map snd groups) in
  let ppg_bounce := np_mean all_bounce_matches in
  let ppg_no_bounce := np_mean all_no_bounce_matches in
  let p_value := ttest_ind all_bounce_matches all_no_bounce_matches in
  colors <- choose_colors ppg_bounce ppg_no_bounce ;;
  title <- choose_title p_value ;;
  Ok {| bar_heights := (ppg_bounce, ppg_no_bounce);
        n_matches := (length all_bounce_matches, length all_no_bounce_matches);
        color_list := colors;
        hypothesis_title := title |}.

(** ** The vocabulary of the specification *)

(** A team's match dates in chronological order; a team plays at most one
    match a day, so the order is strict. *)
Definition chronological (dates : list Timestamp) : Prop :=
  StronglySorted Z.lt dates.

(** The matches dated on or after a hire date, in frame order. *)
Definition on_or_after (hire : Timestamp) (dates : list Timestamp) : list Timestamp :=
  filter (fun d => hire <=? d) dates.

(** The bounce window of a hire date: the [N] earliest matches dated on or
    after it. *)
Definition bounce_window (N : Z) (hire : Timestamp) (dates : list Timestamp)
  : list Timestamp :=
  firstn (Z.to_nat N) (on_or_after hire dates).

Definition in_window (d : Timestamp) (window : list Timestamp) : bool :=
  existsb (Z.eqb d) window.

(** The label the specification gives a match, from the windows it lies in. *)
Definition window_label (windows : list (list Timestamp)) (d : Timestamp) : Z :=
  if existsb (in_window d) windows then 1 else 0.

Definition count_label (label : Z) (labels : list Z) : nat :=
  count_occ Z.eq_dec labels label.

(** The points rule in the words of the specification. *)
Inductive awards (own other : Z) : Z -> Prop :=
| award_win : own > other -> awards own other 3
| award_draw : own = other -> awards own other 1
| award_loss : own < other -> awards own other 0.

(** The points of the matches that carry [label], row by row. *)
Fixpoint points_of_group (label : Z) (labels points : list Z) : list Z :=
  match labels, points with
  | b :: labels', p :: points' =>
      if Z.eq_dec b label then p :: points_of_group label labels' points'
      else points_of_group label labels' points'
  | _, _ => []
  end.

(** A labelled frame: both derived columns are there, one cell per row. *)
Definition labelled (df : DataFrame) (labels points : list Z) : Prop :=
  get_column (columns df) "is_manager_bounce" = Some labels /\
  get_column (columns df) "points_from_match" = Some points /\
  length labels = len df /\ length points = len df.

(** What one run of the pipeline leaves in the two derived columns. *)
Definition labels_and_points (r : result DataFrame)
  : result (option (list Z) * option (list Z)) :=
  df <- r ;;
  Ok (get_column (columns df) "is_manager_bounce",
      get_column (columns df) "points_from_match").

(** ** Row-wise reading of the two functions *)

(** The label [np.select] leaves on a row dated [d], for one hire date and
    for two, given the last dates of the bounces. *)
Definition single_hire_label (hire last d : Timestamp) : Z :=
  if (d <? hire) || (last <? d) then 0
  else if (hire <=? d) && (d <=? last) then 1
  else 0.

Definition two_hire_label (hire1 last1 hire2 last2 d : Timestamp) : Z :=
  if (d <? hire1) || ((last1 <? d) && (d <? hire2)) || (last2 <? d) then 0
  else if ((hire1 <=? d) && (d <=? last1)) || ((hire2 <=? d) && (d <=? last2)) then 1
  else 0.

(** What one pass of the points loop writes, if it writes at all. *)
Definition points_written (team_name : string) (row : Match) : option Z :=
  if String.eqb (home_team row) team_name then
    Some (if home_score row >? away_score row then 3
          else if home_score row =? away_score row then 1 else 0)
  else if String.eqb (away_team row) team_name then
    Some (if away_score row >? home_score row then 3
          else if home_score row =? away_score row then 1 else 0)
  else None.

(** The effect of one pass on the points column. *)
Definition points_column_step (team_name : string) (rs : list (Z * Match))
    (col : list Z) (ir : Z * Match) : list Z :=
  match points_written team_name (snd ir) with
  | Some v => map2 (fun r old => if fst r =? fst ir then v else old) rs col
  | None => col
  end.

Definition points_column (team_name : string) (rs : list (Z * Match)) : list Z :=
  fold_left (points_column_step team_name rs) rs (repeat 0 (length rs)).

(** The points a row ends with when no other row shares its label. *)
Definition points_of_row (team_name : string) (row : Match) : Z :=
  match points_written team_name row with
  | Some v => v
  | None => 0
  end.

(** ** Groups and their means *)

(** One team's frame out of the pipeline with its two derived columns. *)
Record LabelledFrame : Type := mkLabelled {
  frame : DataFrame;
  frame_labels : list Z;
  frame_points : list Z
}.

(** The points of all matches that carry [label], over several frames. *)
Definition pooled (label : Z) (frames : list LabelledFrame) : list Z :=
  flat_map (fun f => points_of_group label (frame_labels f) (frame_points f)) frames.

(** The number of matches that carry [label], over several frames. *)
Definition group_size (label : Z) (frames : list LabelledFrame) : nat :=
  list_sum (map (fun f => count_label label (frame_labels f)) frames).

(** [shown] is the unweighted arithmetic mean of [values]: their sum over
    their number, and no number at all when there are no values. *)
Definition is_mean (values : list Z) (shown : option Q) : Prop :=
  match shown with
  | Some q => values <> [] /\
              Qeq q (Qdiv (inject_Z (sum values)) (inject_Z (Z.of_nat (length values))))
  | None => values = []
  end.

(** ** Two runs of the pipeline *)

(** Two frames that hold the same rows under the same labels, and the same
    bounce labels if they hold any; their other columns are free. *)
Definition agree (df1 df2 : DataFrame) : Prop :=
  rows df1 = rows df2 /\
  get_column (columns df1) "is_manager_bounce" =
  get_column (columns df2) "is_manager_bounce".

Definition agree_result (r1 r2 : result DataFrame) : Prop :=
  match r1, r2 with
  | Ok df1, Ok df2 => agree df1 df2
  | Raise e1, Raise e2 => e1 = e2
  | _, _ => False
  end.

(** Two fetches that return the same competitions and the same matches. *)
Definition same_fetch (sb1 sb2 : StatsBomb) : Prop :=
  competitions sb1 = competitions sb2 /\
  forall comp_id seas_id, agree (matches sb1 comp_id seas_id) (matches sb2 comp_id seas_id).

(** ** Rows, teams and well-formed frames *)

(** The row is a match of the team, at home or away: the mask of the team
    match extractor on one row. *)
Definition plays (team_name : string) (r : Z * Match) : bool :=
  String.eqb (home_team (snd r)) team_name || String.eqb (away_team (snd r)) team_name.

Definition date_of (r : Z * Match) : Timestamp := match_date (snd r).

(** Every column has one cell per row. *)
Definition well_formed (df : DataFrame) : Prop :=
  Forall (fun cv => length (snd cv) = len df) (columns df).

(** The value the points loop leaves on the rows labelled [label]: the one
    written by the last row in [rs] that carries the label and is a match of
    the team, and the initial 0 if there is none. *)
Definition last_write (team_name : string) (rs : list (Z * Match)) (label : Z) : Z :=
  fold_left
    (fun acc q =>
       if fst q =? label
       then match points_written team_name (snd q) with
            | Some v => v
            | None => acc
            end
       else acc)
    rs 0.

(** The matches dated after a hire date, in frame order: the series the
    single-hire branch takes its [N]-th entry from. *)
Definition strictly_after (hire : Timestamp) (dates : list Timestamp) : list Timestamp :=
  filter (fun d => hire <? d) dates.

(** A labelled frame whose labels are 0 or 1 and whose points are 0, 1 or 3. *)
Definition labelled_in_range (df : DataFrame) (labels points : list Z) : Prop :=
  labelled df labels points /\
  Forall (fun b => b = 0 \/ b = 1) labels /\
  Forall (fun p => p = 0 \/ p = 1 \/ p = 3) points.

(** ** Sample frames *)

Definition sample_row (label : Z) (date : Timestamp) (home away : string)
    (home_goals away_goals : Z) : Z * Match :=
  (label, mkMatch date home away home_goals away_goals).

(** Eight consecutive league matches of one team around an autumn change of
    manager. *)
Definition sample_matches : DataFrame :=
  {| rows :=
       [ sample_row 63 20151003 "Sunderland" "West Ham United" 2 2;
         sample_row 71 20151017 "West Bromwich Albion" "Sunderland" 1 0;
         sample_row 88 20151025 "Sunderland" "Newcastle United" 3 0;
         sample_row 95 20151031 "Everton" "Sunderland" 6 2;
         sample_row 104 20151107 "Sunderland" "Southampton" 0 1;
         sample_row 119 20151123 "Crystal Palace" "Sunderland" 0 1;
         sample_row 127 20151128 "Sunderland" "Stoke City" 2 0;
         sample_row 139 20151205 "Arsenal" "Sunderland" 3 1 ];
     columns := [("match_week", [8; 9; 10; 11; 12; 13; 14; 15])] |}.

(** The same season slice as the provider hands it out, with a match of two
    other teams in between. *)
Definition sample_season : DataFrame :=
  {| rows :=
       [ sample_row 63 20151003 "Sunderland" "West Ham United" 2 2;
         sample_row 71 20151017 "West Bromwich Albion" "Sunderland" 1 0;
         sample_row 72 20151017 "Chelsea" "Aston Villa" 2 0;
         sample_row 88 20151025 "Sunderland" "Newcastle United" 3 0;
         sample_row 95 20151031 "Everton" "Sunderland" 6 2;
         sample_row 104 20151107 "Sunderland" "Southampton" 0 1;
         sample_row 119 20151123 "Crystal Palace" "Sunderland" 0 1;
         sample_row 127 20151128 "Sunderland" "Stoke City" 2 0;
         sample_row 139 20151205 "Arsenal" "Sunderland" 3 1 ];
     columns := [] |}.

(** A frame in which two rows carry the same index label. *)
Definition sample_shared_label : DataFrame :=
  {| rows :=
       [ sample_row 0 20150912 "Sunderland" "Liverpool" 1 0;
         sample_row 0 20150912 "Swansea City" "Aston Villa" 2 2 ];
     columns := [] |}.

(** A frame in which a home win and a later away defeat of the same team
    carry the same index label. *)
Definition sample_overwritten_win : DataFrame :=
  {| rows :=
       [ sample_row 0 20150912 "Sunderland" "Liverpool" 1 0;
         sample_row 0 20151031 "Everton" "Sunderland" 6 2 ];
     columns := [] |}.

(** The same fetch with a column the script never reads. *)
Definition sample_season_with_attendance : DataFrame :=
  {| rows := rows sample_season;
     columns := [("attendance", [41; 24; 41; 47; 36; 45; 24; 43; 59])] |}.

(** Eight rounds among the six teams that changed manager. *)
Definition sample_six_teams : DataFrame :=
  {| rows :=
       [ sample_row 0 20150912 "Sunderland" "Liverpool" 1 0;
         sample_row 1 20150912 "Swansea City" "Aston Villa" 2 2;
         sample_row 2 20150912 "Chelsea" "Newcastle United" 0 1;
         sample_row 3 20150926 "Liverpool" "Swansea City" 3 1;
         sample_row 4 20150926 "Aston Villa" "Chelsea" 0 2;
         sample_row 5 20150926 "Newcastle United" "Sunderland" 1 1;
         sample_row 6 20160213 "Sunderland" "Swansea City" 2 0;
         sample_row 7 20160213 "Liverpool" "Aston Villa" 6 0;
         sample_row 8 20160213 "Chelsea" "Newcastle United" 5 1;
         sample_row 9 20160402 "Sunderland" "Aston Villa" 0 0;
         sample_row 10 20160402 "Liverpool" "Chelsea" 1 1;
         sample_row 11 20160402 "Swansea City" "Newcastle United" 3 0;
         sample_row 12 20160409 "Chelsea" "Sunderland" 3 1;
         sample_row 13 20160409 "Newcastle United" "Liverpool" 2 0;
         sample_row 14 20160409 "Aston Villa" "Swansea City" 1 2;
         sample_row 15 20160416 "Sunderland" "Liverpool" 2 2;
         sample_row 16 20160416 "Swansea City" "Chelsea" 1 0;
         sample_row 17 20160416 "Newcastle United" "Aston Villa" 1 1;
         sample_row 18 20160423 "Swansea City" "Sunderland" 2 4;
         sample_row 19 20160423 "Aston Villa" "Liverpool" 0 6;
         sample_row 20 20160423 "Newcastle United" "Chelsea" 2 2;
         sample_row 21 20160430 "Aston Villa" "Sunderland" 2 2;
         sample_row 22 20160430 "Chelsea" "Liverpool" 1 2;
         sample_row 23 20160430 "Newcastle United" "Swansea City" 3 0 ];
     columns := [] |}.

Definition sample_provider (season : DataFrame) : StatsBomb :=
  {| competitions := [ mkCompetition 2 27 "Premier League" "2015/2016" ];
     matches := fun comp_id seas_id =>
       if (comp_id =? 2) && (seas_id =? 27) then season
       else {| rows := []; columns := [] |} |}.

(** The chart of the eight sample rounds: 31 bounce matches with 44 points,
    17 others with 20. *)
Definition sample_overall_chart : Chart :=
  {| bar_heights := (Some (44 # 31)%Q, Some (20 # 17)%Q);
     n_matches := (31%nat, 17%nat);
     color_list := (green, red);
     hypothesis_title := false |}.

(** A stand-in for the t-test: nan when a sample is empty, a p-value of one
    quarter otherwise. *)
Definition sample_ttest_ind (a b : list Z) : option Q :=
  match a, b with
  | [], _ | _, [] => None
  | _, _ => Some (1 # 4)%Q
  end.

(** * Proofs *)

(** ** Series and masks over one underlying column *)

Section Elementwise.
Context {A : Type}.

Lemma map2_map_map {B C D : Type} (h : B -> C -> D) (f : A -> B) (g : A -> C)
      (s : list A) :
  map2 h (map f s) (map g s) = map (fun x => h (f x) (g x)) s.
Proof. induction s as [|x s IH]; simpl; [reflexivity | now rewrite IH]. Qed.

Lemma map2_map_repeat {B D : Type} (h : B -> Z -> D) (f : A -> B) (z : Z)
      (s : list A) :
  map2 h (map f s) (repeat z (length s)) = map (fun x => h (f x) z) s.
Proof. induction s as [|x s IH]; simpl; [reflexivity | now rewrite IH]. Qed.

Lemma boolean_index_map (p : A -> bool) (s : list A) :
  boolean_index s (map p s) = filter p s.
Proof.
  induction s as [|x s IH]; simpl; [reflexivity |].
  destruct (p x); now rewrite IH.
Qed.

Lemma np_select_two (p q : A -> bool) (a b : Z) (s : list A) :
  np_select (length s) [(map p s, a); (map q s, b)] =
  map (fun x => if p x then a else if q x then b else 0) s.
Proof.
  simpl. rewrite map2_map_repeat.
  rewrite (map2_map_map (fun (c : bool) (other : Z) => if c then a else other) p).
  reflexivity.
Qed.

Lemma filter_filter (p q : A -> bool) (s : list A) :
  filter q (filter p s) = filter (fun x => p x && q x) s.
Proof.
  induction s as [|x s IH]; simpl; [reflexivity |].
  destruct (p x); simpl; [destruct (q x) |]; now rewrite IH.
Qed.

Lemma filter_length_split (p q : A -> bool) (s : list A) :
  (forall x, In x s -> p x = true -> q x = false) ->
  length (filter (fun x => p x || q x) s) =
  (length (filter p s) + length (filter q s))%nat.
Proof.
  induction s as [|x s IH]; intros Hpq; simpl; [reflexivity |].
  assert (IH' := IH (fun y Hy => Hpq y (or_intror Hy))).
  destruct (p x) eqn:Hp; simpl.
  - rewrite (Hpq x (or_introl eq_refl) Hp). simpl. now rewrite IH'.
  - destruct (q x); simpl; rewrite IH'; lia.
Qed.
End Elementwise.

Lemma count_label_map_indicator {A : Type} (p : A -> bool) (s : list A) :
  count_label 1 (map (fun x => if p x then 1 else 0) s) = length (filter p s).
Proof.
  unfold count_label.
  induction s as [|x s IH]; simpl; [reflexivity |].
  destruct (p x); simpl.
  - destruct (Z.eq_dec 1 1); [now rewrite IH | congruence].
  - destruct (Z.eq_dec 0 1); [discriminate | exact IH].
Qed.

(** ** Positional access *)

Lemma iloc_in_range {A : Type} (s : list A) (i : Z) :
  0 <= i < Z.of_nat (length s) ->
  exists x, iloc s i = Ok x /\ nth_error s (Z.to_nat i) = Some x.
Proof.
  intros Hi. unfold iloc.
  replace (i <? - Z.of_nat (length s)) with false by (symmetry; apply Z.ltb_ge; lia).
  replace (Z.of_nat (length s) <=? i) with false by (symmetry; apply Z.leb_gt; lia).
  replace (i <? 0) with false by (symmetry; apply Z.ltb_ge; lia).
  simpl.
  destruct (nth_error s (Z.to_nat i)) as [x|] eqn:Hx.
  - now exists x.
  - apply nth_error_None in Hx. lia.
Qed.

Lemma iloc_past_end {A : Type} (s : list A) (i : Z) :
  Z.of_nat (length s) <= i -> iloc s i = Raise IndexError.
Proof.
  intros Hi. unfold iloc.
  replace (Z.of_nat (length s) <=? i) with true by (symmetry; apply Z.leb_le; lia).
  now rewrite orb_true_r.
Qed.

(** ** Columns *)

Lemma get_column_has (cols : list (string * list Z)) (name : string) :
  has_column cols name = false -> get_column cols name = None.
Proof.
  induction cols as [|[c v] cols IH]; simpl; [reflexivity |].
  destruct (String.eqb c name); simpl; [discriminate | exact IH].
Qed.

Lemma get_column_app_new (cols : list (string * list Z)) (name other : string)
      (values : list Z) :
  get_column (cols ++ [(name, values)]) other =
  match get_column cols other with
  | Some v => Some v
  | None => if String.eqb name other then Some values else None
  end.
Proof.
  induction cols as [|[c v] cols IH]; simpl; [reflexivity |].
  destruct (String.eqb c other); [reflexivity | exact IH].
Qed.

Lemma get_set_column_eq (df : DataFrame) (name : string) (values : list Z) :
  get_column (columns (set_column df name values)) name = Some values.
Proof.
  unfold set_column; simpl.
  destruct (has_column (columns df) name) eqn:Hhas.
  - induction (columns df) as [|[c v] cols IH]; simpl in *; [discriminate |].
    destruct (String.eqb c name) eqn:Hc; simpl.
    + now rewrite Hc.
    + rewrite Hc. apply IH. exact Hhas.
  - rewrite get_column_app_new, (get_column_has _ _ Hhas).
    now rewrite String.eqb_refl.
Qed.

Lemma get_set_column_ne (df : DataFrame) (name other : string) (values : list Z) :
  other <> name ->
  get_column (columns (set_column df name values)) other = get_column (columns df) other.
Proof.
  intros Hne. unfold set_column; simpl.
  destruct (has_column (columns df) name).
  - induction (columns df) as [|[c v] cols IH]; simpl; [reflexivity |].
    destruct (String.eqb c name) eqn:Hc; simpl.
    + apply String.eqb_eq in Hc. subst c.
      replace (String.eqb name other) with false
        by (symmetry; apply String.eqb_neq; congruence).
      exact IH.
    + destruct (String.eqb c other); [reflexivity | exact IH].
  - rewrite get_column_app_new.
    destruct (get_column (columns df) other); [reflexivity |].
    replace (String.eqb name other) with false
      by (symmetry; apply String.eqb_neq; congruence).
    reflexivity.
Qed.

Lemma names_set_column (df : DataFrame) (name : string) (values : list Z) :
  map fst (columns (set_column df name values)) =
  if has_column (columns df) name then map fst (columns df)
  else map fst (columns df) ++ [name].
Proof.
  unfold set_column; simpl.
  destruct (has_column (columns df) name).
  - rewrite map_map. apply map_ext. intros [c v]; simpl.
    now destruct (String.eqb c name).
  - now rewrite map_app.
Qed.

(** ** Chronological lists and their windows *)

Lemma chronological_filter (p : Timestamp -> bool) (dates : list Timestamp) :
  chronological dates -> chronological (filter p dates).
Proof.
  unfold chronological.
  induction 1 as [|d dates Hsorted IH Hall]; simpl; [constructor |].
  destruct (p d); [| exact IH].
  constructor; [exact IH |].
  rewrite Forall_forall in *. intros x Hx.
  apply filter_In in Hx. now apply Hall.
Qed.

Lemma chronological_NoDup (dates : list Timestamp) :
  chronological dates -> NoDup dates.
Proof.
  induction 1 as [|d dates Hsorted IH Hall]; constructor; [| exact IH].
  intros Hin. rewrite Forall_forall in Hall. specialize (Hall d Hin). lia.
Qed.

Lemma filter_none {A : Type} (p : A -> bool) (s : list A) :
  (forall x, In x s -> p x = false) -> filter p s = [].
Proof.
  induction s as [|x s IH]; intros Hp; simpl; [reflexivity |].
  rewrite (Hp x (or_introl eq_refl)). apply IH.
  intros y Hy. apply Hp. now right.
Qed.

(** In a chronological list the entries up to the one at position [k] are
    exactly the first [k + 1]. *)
Lemma chronological_prefix (dates : list Timestamp) (k : nat) (l : Timestamp) :
  chronological dates ->
  nth_error dates k = Some l ->
  filter (fun d => d <=? l) dates = firstn (S k) dates.
Proof.
  intros Hsorted. revert k.
  induction Hsorted as [|d dates Hsorted IH Hall]; intros k Hk.
  - destruct k; discriminate.
  - rewrite Forall_forall in Hall.
    destruct k as [|k]; simpl in Hk.
    + injection Hk as ->. simpl. rewrite Z.leb_refl. f_equal.
      apply filter_none. intros x Hx. apply Z.leb_gt. now apply Hall.
    + assert (Hl : d < l) by (apply Hall; eapply nth_error_In; eassumption).
      change (filter (fun x => x <=? l) (d :: dates))
        with (if d <=? l then d :: filter (fun x => x <=? l) dates
              else filter (fun x => x <=? l) dates).
      replace (d <=? l) with true by (symmetry; apply Z.leb_le; lia).
      rewrite (IH k Hk). reflexivity.
Qed.

(** The window of a hire date is the stretch of dates from the hire date to
    the date that [iloc] picks. *)
Lemma bounce_window_interval (dates : list Timestamp) (hire : Timestamp) (N : Z) :
  chronological dates ->
  1 <= N <= Z.of_nat (length (on_or_after hire dates)) ->
  exists l,
    iloc (on_or_after hire dates) (N - 1) = Ok l /\
    In l (bounce_window N hire dates) /\
    bounce_window N hire dates =
      filter (fun d => (hire <=? d) && (d <=? l)) dates /\
    length (bounce_window N hire dates) = Z.to_nat N.
Proof.
  intros Hsorted HN.
  destruct (iloc_in_range (on_or_after hire dates) (N - 1)) as (l & Hiloc & Hnth);
    [lia |].
  assert (Hwin : bounce_window N hire dates =
                 filter (fun d => d <=? l) (on_or_after hire dates)).
  { assert (Hafter : chronological (on_or_after hire dates))
      by now apply chronological_filter.
    unfold bounce_window.
    rewrite (chronological_prefix _ _ _ Hafter Hnth).
    f_equal. lia. }
  exists l. repeat split.
  - exact Hiloc.
  - rewrite Hwin. apply filter_In. split.
    + eapply nth_error_In; eassumption.
    + apply Z.leb_refl.
  - rewrite Hwin. unfold on_or_after. apply filter_filter.
  - unfold bounce_window. rewrite length_firstn. lia.
Qed.

Lemma in_window_filter (p : Timestamp -> bool) (dates : list Timestamp) (d : Timestamp) :
  In d dates -> in_window d (filter p dates) = p d.
Proof.
  intros Hd. unfold in_window.
  destruct (p d) eqn:Hp.
  - apply existsb_exists. exists d. split; [| apply Z.eqb_refl].
    apply filter_In. now split.
  - apply not_true_is_false. intros Hex.
    apply existsb_exists in Hex. destruct Hex as (x & Hx & Heq).
    apply Z.eqb_eq in Heq. subst x. apply filter_In in Hx. destruct Hx. congruence.
Qed.

Lemma in_window_In (d : Timestamp) (window : list Timestamp) :
  in_window d window = true <-> In d window.
Proof.
  unfold in_window. rewrite existsb_exists. split.
  - intros (x & Hx & Heq). apply Z.eqb_eq in Heq. now subst.
  - intros Hd. exists d. split; [exact Hd | apply Z.eqb_refl].
Qed.

Lemma bounce_window_on_or_after (N : Z) (hire d : Timestamp) (dates : list Timestamp) :
  In d (bounce_window N hire dates) -> hire <= d /\ In d dates.
Proof.
  intros Hd. unfold bounce_window in Hd.
  assert (Hd' : In d (on_or_after hire dates)).
  { rewrite <- (firstn_skipn (Z.to_nat N)). apply in_or_app. now left. }
  clear Hd. apply filter_In in Hd'. rename Hd' into Hd. destruct Hd as [Hin Hle].
  apply Z.leb_le in Hle. now split.
Qed.

(** ** The bounce labeller, row by row *)

Lemma len_match_date (df : DataFrame) : length (col_match_date df) = len df.
Proof. unfold col_match_date, len. apply length_map. Qed.

Lemma series_ge_index (dates : list Timestamp) (hire : Timestamp) :
  boolean_index dates (Series_ge dates hire) = on_or_after hire dates.
Proof. apply boolean_index_map. Qed.

Lemma single_hire_labels (df : DataFrame) (hire second : Timestamp) (N : Z) :
  add_managerial_change_column df hire second 1 N =
  (last <- iloc (filter (fun d => hire <? d) (col_match_date df)) (N - 1) ;;
   Ok (set_column df "is_manager_bounce"
         (map (single_hire_label hire last) (col_match_date df)))).
Proof.
  unfold add_managerial_change_column. simpl.
  unfold Series_gt at 1. rewrite boolean_index_map.
  destruct (iloc _ _) as [last|e]; simpl; [| reflexivity].
  do 2 f_equal.
  unfold mask_or, mask_and, Series_lt, Series_gt, Series_ge, Series_le.
  rewrite !map2_map_map, <- len_match_date.
  exact (np_select_two _ _ 0 1 _).
Qed.

Lemma two_hire_labels (df : DataFrame) (hire1 hire2 : Timestamp) (N : Z) :
  add_managerial_change_column df hire1 hire2 2 N =
  (last1 <- iloc (on_or_after hire1 (col_match_date df)) (N - 1) ;;
   last2 <- iloc (on_or_after hire2 (col_match_date df)) (N - 1) ;;
   Ok (set_column df "is_manager_bounce"
         (map (two_hire_label hire1 last1 hire2 last2) (col_match_date df)))).
Proof.
  unfold add_managerial_change_column. simpl.
  rewrite !series_ge_index.
  destruct (iloc _ _) as [last1|e]; simpl; [| reflexivity].
  destruct (iloc _ _) as [last2|e]; simpl; [| reflexivity].
  do 2 f_equal.
  unfold mask_or, mask_and, Series_lt, Series_gt, Series_ge, Series_le.
  rewrite !map2_map_map, <- len_match_date.
  exact (np_select_two _ _ 0 1 _).
Qed.

Lemma iloc_raises {A : Type} (s : list A) (i : Z) (e : exception) :
  iloc s i = Raise e -> e = IndexError.
Proof.
  unfold iloc.
  destruct (_ || _); [congruence |].
  destruct (nth_error _ _); congruence.
Qed.

Lemma filter_length_mono {A : Type} (p q : A -> bool) (s : list A) :
  (forall x, p x = true -> q x = true) ->
  (length (filter p s) <= length (filter q s))%nat.
Proof.
  intros Hpq. induction s as [|x s IH]; simpl; [lia |].
  destruct (p x) eqn:Hp.
  - rewrite (Hpq x Hp). simpl. lia.
  - destruct (q x); simpl; lia.
Qed.

Ltac decide_dates :=
  repeat match goal with
         | |- context [?a <? ?b] => destruct (Z.ltb_spec a b)
         | |- context [?a <=? ?b] => destruct (Z.leb_spec a b)
         end;
  simpl; try reflexivity; try lia.

Lemma window_label_two (w1 w2 : list Timestamp) (d : Timestamp) :
  window_label [w1; w2] d = if in_window d w1 || in_window d w2 then 1 else 0.
Proof. unfold window_label. simpl. now rewrite orb_false_r. Qed.

(** C2: with two hire dates, each followed by at least [N] matches and the
    first window ending before the second begins, the labeller marks with 1
    exactly the matches of the two windows (each the [N] earliest matches on
    or after its hire date), [2 * N] matches in all and none twice, and marks
    0 every match before the first hire date, between the first window and
    the second hire date, and after the second window. *)
Theorem two_hire_windows_labelled (df : DataFrame) (hire1 hire2 : Timestamp) (N : Z) :
  let dates := col_match_date df in
  let window1 := bounce_window N hire1 dates in
  let window2 := bounce_window N hire2 dates in
  chronological dates ->
  1 <= N ->
  N <= Z.of_nat (length (on_or_after hire1 dates)) ->
  N <= Z.of_nat (length (on_or_after hire2 dates)) ->
  (forall d1 d2, In d1 window1 -> In d2 window2 -> d1 < d2) ->
  exists df',
    add_managerial_change_column df hire1 hire2 2 N = Ok df' /\
    get_column (columns df') "is_manager_bounce" =
      Some (map (window_label [window1; window2]) dates) /\
    Z.of_nat (length window1) = N /\
    Z.of_nat (length window2) = N /\
    (forall d, In d window1 -> ~ In d window2) /\
    Z.of_nat (count_label 1 (map (window_label [window1; window2]) dates)) = 2 * N /\
    (forall d, In d dates ->
       d < hire1 \/
       ((forall x, In x window1 -> x < d) /\ d < hire2) \/
       (forall x, In x window2 -> x < d) ->
       window_label [window1; window2] d = 0).
Proof.
  intros dates window1 window2 Hsorted HN Hafter1 Hafter2 Horder.
  destruct (bounce_window_interval dates hire1 N Hsorted) as (l1 & Hi1 & Hin1 & Hw1 & Hlen1);
    [lia |].
  destruct (bounce_window_interval dates hire2 N Hsorted) as (l2 & Hi2 & Hin2 & Hw2 & Hlen2);
    [lia |].
  fold window1 in Hin1, Hw1, Hlen1. fold window2 in Hin2, Hw2, Hlen2.
  destruct (bounce_window_on_or_after _ _ _ _ Hin1) as [Hh1 Hd1].
  destruct (bounce_window_on_or_after _ _ _ _ Hin2) as [Hh2 Hd2].
  fold dates in Hd1, Hd2.
  assert (Hl12 : l1 < l2) by now apply Horder.
  assert (Hgap : l1 < hire2).
  { destruct (Z.lt_ge_cases l1 hire2) as [Hlt|Hge]; [exact Hlt |].
    exfalso. apply (Z.lt_irrefl l1). apply Horder; [exact Hin1 |].
    rewrite Hw2. apply filter_In. split; [exact Hd1 |].
    apply andb_true_intro. split; [apply Z.leb_le | apply Z.leb_le]; lia. }
  assert (Hlabel : forall d, In d dates ->
            window_label [window1; window2] d =
            if ((hire1 <=? d) && (d <=? l1)) || ((hire2 <=? d) && (d <=? l2))
            then 1 else 0).
  { intros d Hd. rewrite window_label_two, Hw1, Hw2.
    now rewrite !in_window_filter by exact Hd. }
  exists (set_column df "is_manager_bounce" (map (window_label [window1; window2]) dates)).
  split; [| split; [| split; [| split; [| split; [| split]]]]].
  - rewrite two_hire_labels. fold dates. rewrite Hi1, Hi2. simpl.
    do 2 f_equal. apply map_ext_in. intros d Hd.
    rewrite (Hlabel d Hd). unfold two_hire_label. decide_dates.
  - apply get_set_column_eq.
  - lia.
  - lia.
  - intros d H1 H2. specialize (Horder d d H1 H2). lia.
  - rewrite (map_ext_in _ _ _ Hlabel), count_label_map_indicator.
    rewrite filter_length_split.
    + rewrite <- Hw1, <- Hw2. lia.
    + intros d _ Hd. apply andb_prop in Hd. destruct Hd as [_ Hd].
      apply Z.leb_le in Hd. apply andb_false_intro1. apply Z.leb_gt. lia.
  - intros d Hd Hregion. rewrite (Hlabel d Hd).
    destruct Hregion as [Hbefore | [[Hpast1 Hbefore2] | Hpast2]].
    + decide_dates.
    + specialize (Hpast1 l1 Hin1). decide_dates.
    + specialize (Hpast2 l2 Hin2). decide_dates.
Qed.

Ltac in_cases :=
  repeat match goal with
         | H : _ \/ _ |- _ => destruct H
         | H : False |- _ => destruct H
         end;
  subst.

Lemma two_hire_windows_labelled_witness :
  exists df',
    add_managerial_change_column sample_matches 20151003 20151123 2 3 = Ok df' /\
    get_column (columns df') "is_manager_bounce" = Some [1; 1; 1; 0; 0; 1; 1; 1].
Proof.
  destruct (two_hire_windows_labelled sample_matches 20151003 20151123 3)
    as (df' & Hrun & Hcol & _).
  - unfold chronological. simpl. repeat constructor.
  - lia.
  - simpl. lia.
  - simpl. lia.
  - intros d1 d2 H1 H2. simpl in H1, H2. in_cases; reflexivity.
  - exists df'. split; [exact Hrun | exact Hcol].
Defined.

(** With a single hire date that is no match day, the labeller marks the
    [N] earliest matches on or after the hire date and no other. *)
Lemma single_hire_window_off_match_day (df : DataFrame) (hire second : Timestamp) (N : Z) :
  let dates := col_match_date df in
  let window := bounce_window N hire dates in
  chronological dates ->
  1 <= N <= Z.of_nat (length (on_or_after hire dates)) ->
  ~ In hire dates ->
  exists df',
    add_managerial_change_column df hire second 1 N = Ok df' /\
    get_column (columns df') "is_manager_bounce" =
      Some (map (window_label [window]) dates) /\
    Z.of_nat (count_label 1 (map (window_label [window]) dates)) = N.
Proof.
  intros dates window Hsorted HN Hoff.
  destruct (bounce_window_interval dates hire N Hsorted HN) as (l & Hi & Hin & Hw & Hlen).
  fold window in Hin, Hw, Hlen.
  assert (Hstrict : filter (fun d => hire <? d) dates = on_or_after hire dates).
  { apply filter_ext_in. intros d Hd.
    assert (d <> hire) by congruence. decide_dates. }
  assert (Hlabel : forall d, In d dates ->
            window_label [window] d = if (hire <=? d) && (d <=? l) then 1 else 0).
  { intros d Hd. unfold window_label. simpl. rewrite orb_false_r, Hw.
    now rewrite in_window_filter by exact Hd. }
  exists (set_column df "is_manager_bounce" (map (window_label [window]) dates)).
  split; [| split].
  - rewrite single_hire_labels. fold dates. rewrite Hstrict, Hi. simpl.
    do 2 f_equal. apply map_ext_in. intros d Hd.
    rewrite (Hlabel d Hd). unfold single_hire_label. decide_dates.
  - apply get_set_column_eq.
  - rewrite (map_ext_in _ _ _ Hlabel), count_label_map_indicator, <- Hw. lia.
Qed.

(** C1: hiring on a match day.  The team has eight matches in date order,
    seven of them on or after the hire date 2015-10-17; the window of the
    specification is the five matches from 17 October to 23 November, and
    the single-hire branch marks six, up to 28 November. *)
Theorem single_hire_on_a_match_day :
  let dates := col_match_date sample_matches in
  chronological dates /\
  5 <= Z.of_nat (length (on_or_after 20151017 dates)) /\
  map (window_label [bounce_window 5 20151017 dates]) dates = [0; 1; 1; 1; 1; 1; 0; 0] /\
  exists df',
    add_managerial_change_column sample_matches 20151017
      default_second_manager_hire_date 1 5 = Ok df' /\
    get_column (columns df') "is_manager_bounce" = Some [0; 1; 1; 1; 1; 1; 1; 0].
Proof.
  split; [| split; [| split]].
  - unfold chronological. simpl. repeat constructor.
  - simpl. lia.
  - reflexivity.
  - eexists. split; reflexivity.
Qed.

(** C4: when fewer than [N] matches are dated on or after a hire date that
    the labeller uses, the call raises [IndexError]; no frame comes back. *)
Theorem too_few_matches_raise (df : DataFrame) (hire1 hire2 : Timestamp) (n N : Z) :
  let dates := col_match_date df in
  (n = 1 /\ Z.of_nat (length (on_or_after hire1 dates)) < N) \/
  (n = 2 /\ (Z.of_nat (length (on_or_after hire1 dates)) < N \/
             Z.of_nat (length (on_or_after hire2 dates)) < N)) ->
  add_managerial_change_column df hire1 hire2 n N = Raise IndexError.
Proof.
  intros dates [[-> Hfew] | [-> Hfew]].
  - rewrite single_hire_labels. fold dates.
    rewrite iloc_past_end; [reflexivity |].
    assert (length (filter (fun d => (hire1 <? d)%Z) dates) <=
            length (on_or_after hire1 dates))%nat.
    { apply filter_length_mono. intros d Hd.
      apply Z.ltb_lt in Hd. apply Z.leb_le. lia. }
    lia.
  - rewrite two_hire_labels. fold dates.
    destruct (iloc (on_or_after hire1 dates) (N - 1)) as [l1|e] eqn:H1; simpl.
    + destruct Hfew as [Hfew | Hfew].
      * rewrite iloc_past_end in H1 by lia. discriminate.
      * rewrite iloc_past_end by lia. reflexivity.
    + now rewrite (iloc_raises _ _ _ H1).
Qed.

Lemma too_few_matches_raise_witness :
  add_managerial_change_column sample_matches 20151107 default_second_manager_hire_date 1 5
  = Raise IndexError.
Proof.
  apply (too_few_matches_raise sample_matches 20151107 default_second_manager_hire_date 1 5).
  left. split; [reflexivity | simpl; lia].
Defined.

Lemma labeller_skips (df : DataFrame) (hire1 hire2 : Timestamp) (n N : Z) :
  n <> 1 -> n <> 2 ->
  add_managerial_change_column df hire1 hire2 n N = Ok df.
Proof.
  intros H1 H2. unfold add_managerial_change_column.
  destruct (Z.eqb_spec n 1); [contradiction |].
  destruct (Z.eqb_spec n 2); [contradiction |].
  reflexivity.
Qed.

(** C8: with a number of hired managers other than 1 and 2 the labeller
    raises nothing and hands back the frame it was given, no column added. *)
Theorem other_manager_counts_leave_frame (df : DataFrame) (hire1 hire2 : Timestamp)
        (n N : Z) :
  n <> 1 -> n <> 2 ->
  add_managerial_change_column df hire1 hire2 n N = Ok df.
Proof. exact (labeller_skips df hire1 hire2 n N). Qed.

Lemma other_manager_counts_leave_frame_witness :
  add_managerial_change_column sample_matches 20151009 20151123 3 5 = Ok sample_matches.
Proof.
  apply (other_manager_counts_leave_frame sample_matches 20151009 20151123 3 5); lia.
Defined.

(** ** Writes by label *)

Lemma loc_set_get_eq (df : DataFrame) (label : Z) (name : string) (v : Z) :
  get_column (columns (loc_set df label name v)) name =
  option_map (map2 (fun r old => if fst r =? label then v else old) (rows df))
             (get_column (columns df) name).
Proof.
  unfold loc_set; simpl.
  induction (columns df) as [|[c col] cols IH]; simpl; [reflexivity |].
  destruct (String.eqb c name) eqn:Hc; simpl; rewrite Hc; [reflexivity | exact IH].
Qed.

Lemma loc_set_get_ne (df : DataFrame) (label : Z) (name other : string) (v : Z) :
  other <> name ->
  get_column (columns (loc_set df label name v)) other = get_column (columns df) other.
Proof.
  intros Hne. unfold loc_set; simpl.
  induction (columns df) as [|[c col] cols IH]; simpl; [reflexivity |].
  destruct (String.eqb c name) eqn:Hc; simpl.
  - apply String.eqb_eq in Hc. subst c.
    replace (String.eqb name other) with false
      by (symmetry; apply String.eqb_neq; congruence).
    exact IH.
  - destruct (String.eqb c other); [reflexivity | exact IH].
Qed.

Lemma loc_set_names (df : DataFrame) (label : Z) (name : string) (v : Z) :
  map fst (columns (loc_set df label name v)) = map fst (columns df).
Proof.
  unfold loc_set; simpl. rewrite map_map. apply map_ext.
  intros [c col]; simpl. now destruct (String.eqb c name).
Qed.

(** ** The points loop *)

Lemma points_step_written (team_name : string) (df : DataFrame) (ir : Z * Match) :
  points_step team_name df ir =
  match points_written team_name (snd ir) with
  | Some v => loc_set df (fst ir) "points_from_match" v
  | None => df
  end.
Proof.
  unfold points_step, points_written.
  destruct (String.eqb (home_team (snd ir)) team_name).
  - destruct (home_score (snd ir) >? away_score (snd ir)); [reflexivity |].
    now destruct (home_score (snd ir) =? away_score (snd ir)).
  - destruct (String.eqb (away_team (snd ir)) team_name); [| reflexivity].
    destruct (away_score (snd ir) >? home_score (snd ir)); [reflexivity |].
    now destruct (home_score (snd ir) =? away_score (snd ir)).
Qed.

Lemma points_step_frame (team_name : string) (df : DataFrame) (ir : Z * Match) :
  rows (points_step team_name df ir) = rows df /\
  map fst (columns (points_step team_name df ir)) = map fst (columns df) /\
  forall other, other <> "points_from_match" ->
    get_column (columns (points_step team_name df ir)) other =
    get_column (columns df) other.
Proof.
  rewrite points_step_written.
  destruct (points_written team_name (snd ir)) as [v|].
  - split; [reflexivity | split].
    + apply loc_set_names.
    + intros other Hne. now apply loc_set_get_ne.
  - repeat split.
Qed.

Lemma points_step_column (team_name : string) (df : DataFrame) (ir : Z * Match)
      (col : list Z) :
  get_column (columns df) "points_from_match" = Some col ->
  get_column (columns (points_step team_name df ir)) "points_from_match" =
  Some (points_column_step team_name (rows df) col ir).
Proof.
  intros Hcol. rewrite points_step_written. unfold points_column_step.
  destruct (points_written team_name (snd ir)) as [v|]; [| exact Hcol].
  now rewrite loc_set_get_eq, Hcol.
Qed.

Lemma points_loop_frame (team_name : string) (todo : list (Z * Match)) (df : DataFrame) :
  rows (fold_left (points_step team_name) todo df) = rows df /\
  map fst (columns (fold_left (points_step team_name) todo df)) = map fst (columns df) /\
  forall other, other <> "points_from_match" ->
    get_column (columns (fold_left (points_step team_name) todo df)) other =
    get_column (columns df) other.
Proof.
  revert df. induction todo as [|ir todo IH]; intros df; simpl; [repeat split |].
  destruct (IH (points_step team_name df ir)) as (Hrows & Hnames & Hother).
  destruct (points_step_frame team_name df ir) as (Hrows' & Hnames' & Hother').
  split; [congruence | split; [congruence |]].
  intros other Hne. rewrite Hother by exact Hne. now apply Hother'.
Qed.

Lemma points_loop_column (team_name : string) (todo : list (Z * Match)) (df : DataFrame)
      (col : list Z) :
  get_column (columns df) "points_from_match" = Some col ->
  get_column (columns (fold_left (points_step team_name) todo df)) "points_from_match" =
  Some (fold_left (points_column_step team_name (rows df)) todo col).
Proof.
  revert df col. induction todo as [|ir todo IH]; intros df col Hcol; simpl; [exact Hcol |].
  rewrite (IH _ _ (points_step_column team_name df ir col Hcol)).
  now destruct (points_step_frame team_name df ir) as (-> & _).
Qed.

(** The column that [add_points_from_match_column] leaves is a function of
    the rows alone. *)
Lemma add_points_column (df : DataFrame) (team_name : string) :
  get_column (columns (add_points_from_match_column df team_name)) "points_from_match" =
  Some (points_column team_name (rows df)).
Proof.
  unfold add_points_from_match_column.
  rewrite (points_loop_column team_name _ _ _ (get_set_column_eq df _ _)).
  reflexivity.
Qed.

(** ** The points column when every row has its own label *)

Lemma map2_with_map {A B C : Type} (h : A -> B -> C) (g : A -> B) (s : list A) :
  map2 h s (map g s) = map (fun x => h x (g x)) s.
Proof. induction s as [|x s IH]; simpl; [reflexivity | now rewrite IH]. Qed.

Lemma unique_label_row (rs : list (Z * Match)) (r q : Z * Match) :
  NoDup (map fst rs) -> In r rs -> In q rs -> fst r = fst q -> r = q.
Proof.
  induction rs as [|x rs IH]; intros Hnd Hr Hq Heq; [contradiction |].
  simpl in Hnd. apply NoDup_cons_iff in Hnd. destruct Hnd as [Hx Hnd].
  destruct Hr as [-> | Hr], Hq as [-> | Hq].
  - reflexivity.
  - exfalso. apply Hx. rewrite Heq. now apply in_map.
  - exfalso. apply Hx. rewrite <- Heq. now apply in_map.
  - now apply IH.
Qed.

Lemma points_column_one_pass (team_name : string) (rs done : list (Z * Match))
      (q : Z * Match) :
  NoDup (map fst rs) -> In q rs ->
  points_column_step team_name rs
    (map (fun r => if existsb (fun p => fst p =? fst r) done
                   then points_of_row team_name (snd r) else 0) rs) q =
  map (fun r => if existsb (fun p => fst p =? fst r) (q :: done)
                then points_of_row team_name (snd r) else 0) rs.
Proof.
  intros Hnd Hq. unfold points_column_step.
  destruct (points_written team_name (snd q)) as [v|] eqn:Hw.
  - rewrite map2_with_map. apply map_ext_in. intros r Hr. simpl.
    rewrite (Z.eqb_sym (fst q) (fst r)).
    destruct (Z.eqb_spec (fst r) (fst q)) as [Heq|Hne]; simpl; [| reflexivity].
    rewrite (unique_label_row rs r q Hnd Hr Hq Heq).
    unfold points_of_row. now rewrite Hw.
  - apply map_ext_in. intros r Hr. simpl.
    destruct (Z.eqb_spec (fst q) (fst r)) as [Heq|Hne]; simpl; [| reflexivity].
    rewrite (unique_label_row rs r q Hnd Hr Hq (eq_sym Heq)).
    unfold points_of_row. rewrite Hw. now destruct (existsb _ done).
Qed.

Lemma points_column_passes (team_name : string) (rs todo done : list (Z * Match)) :
  NoDup (map fst rs) -> incl todo rs ->
  fold_left (points_column_step team_name rs) todo
    (map (fun r => if existsb (fun p => fst p =? fst r) done
                   then points_of_row team_name (snd r) else 0) rs) =
  map (fun r => if existsb (fun p => fst p =? fst r) (rev todo ++ done)
                then points_of_row team_name (snd r) else 0) rs.
Proof.
  intros Hnd. revert done.
  induction todo as [|q todo IH]; intros done Hincl; simpl; [reflexivity |].
  rewrite points_column_one_pass; [| exact Hnd | apply Hincl; now left].
  rewrite IH by (intros x Hx; apply Hincl; now right).
  now rewrite <- app_assoc.
Qed.

Lemma points_column_unique_labels (team_name : string) (rs : list (Z * Match)) :
  NoDup (map fst rs) ->
  points_column team_name rs = map (fun r => points_of_row team_name (snd r)) rs.
Proof.
  intros Hnd. unfold points_column.
  rewrite <- (map_const 0 rs).
  change (map (fun _ : Z * Match => 0) rs)
    with (map (fun r : Z * Match =>
                 if existsb (fun p : Z * Match => fst p =? fst r) []
                 then points_of_row team_name (snd r) else 0) rs).
  rewrite (points_column_passes team_name rs rs [] Hnd (incl_refl rs)).
  apply map_ext_in. intros r Hr.
  replace (existsb (fun p => fst p =? fst r) (rev rs ++ [])) with true; [reflexivity |].
  symmetry. apply existsb_exists. exists r. split; [| apply Z.eqb_refl].
  apply in_or_app. left. now apply in_rev in Hr.
Qed.

Lemma points_of_row_awards (team_name : string) (row : Match) :
  let p := points_of_row team_name row in
  (p = 0 \/ p = 1 \/ p = 3) /\
  (home_team row = team_name -> awards (home_score row) (away_score row) p) /\
  (home_team row <> team_name -> away_team row = team_name ->
   awards (away_score row) (home_score row) p) /\
  (home_team row <> team_name -> away_team row <> team_name -> p = 0).
Proof.
  unfold points_of_row, points_written.
  destruct (String.eqb_spec (home_team row) team_name) as [Hh|Hh].
  - destruct (Z.gtb_spec (home_score row) (away_score row));
      [| destruct (Z.eqb_spec (home_score row) (away_score row))];
      (split; [lia |]); (split; [intros _ | split; intros; contradiction]).
    + apply award_win. lia.
    + now apply award_draw.
    + apply award_loss. lia.
  - destruct (String.eqb_spec (away_team row) team_name) as [Ha|Ha].
    + destruct (Z.gtb_spec (away_score row) (home_score row));
        [| destruct (Z.eqb_spec (home_score row) (away_score row))];
        (split; [lia |]);
        (split; [intros; contradiction | split; [intros _ _ | intros; contradiction]]).
      * apply award_win. lia.
      * apply award_draw. congruence.
      * apply award_loss. lia.
    + split; [lia |]. split; [intros; contradiction |].
      split; [intros; contradiction | reflexivity].
Qed.

Lemma map2_length {A B C : Type} (f : A -> B -> C) (l : list A) (m : list B) :
  length l = length m -> length (map2 f l m) = length l.
Proof.
  revert m. induction l as [|a l IH]; intros [|b m] Hlen; simpl in *;
    try discriminate; [reflexivity |].
  f_equal. apply IH. now injection Hlen.
Qed.

Lemma points_column_length (team_name : string) (rs : list (Z * Match)) :
  length (points_column team_name rs) = length rs.
Proof.
  unfold points_column.
  assert (Hfold : forall todo col, length col = length rs ->
            length (fold_left (points_column_step team_name rs) todo col) = length rs).
  { induction todo as [|q todo IH]; intros col Hcol; simpl; [exact Hcol |].
    apply IH. unfold points_column_step.
    destruct (points_written team_name (snd q)); [| exact Hcol].
    now rewrite map2_length. }
  apply Hfold, repeat_length.
Qed.

Lemma points_written_range (team_name : string) (row : Match) (v : Z) :
  points_written team_name row = Some v -> v = 0 \/ v = 1 \/ v = 3.
Proof.
  unfold points_written. intros Hv.
  destruct (String.eqb (home_team row) team_name);
    [| destruct (String.eqb (away_team row) team_name); [| discriminate]];
    injection Hv as <-;
    repeat match goal with |- context [if ?c then _ else _] => destruct c end; lia.
Qed.

(** Whatever the labels, the loop only ever leaves 0, 1 or 3 in a cell. *)
Lemma points_column_range (team_name : string) (rs : list (Z * Match)) :
  Forall (fun p => p = 0 \/ p = 1 \/ p = 3) (points_column team_name rs).
Proof.
  unfold points_column.
  assert (Hfold : forall todo col,
            Forall (fun p => p = 0 \/ p = 1 \/ p = 3) col ->
            Forall (fun p => p = 0 \/ p = 1 \/ p = 3)
                   (fold_left (points_column_step team_name rs) todo col)).
  { induction todo as [|q todo IH]; intros col Hcol; simpl; [exact Hcol |].
    apply IH. unfold points_column_step.
    destruct (points_written team_name (snd q)) as [v|] eqn:Hv; [| exact Hcol].
    apply points_written_range in Hv.
    clear IH. revert col Hcol.
    induction rs as [|r rs' IHrs]; intros col Hcol; simpl; [constructor |].
    destruct Hcol as [|p col Hp Hcol]; constructor.
    - now destruct (fst r =? fst q).
    - now apply IHrs. }
  apply Hfold. induction (length rs); simpl; constructor; [now left | assumption].
Qed.

(** C3: every row ends with 0, 1 or 3 points, and on a frame whose rows have
    labels of their own the points are: for the home team 3 when the home
    score is greater, 1 when the scores are equal and 0 otherwise, and the
    same with the scores swapped for the team playing away. *)
Theorem points_from_match_rule (df : DataFrame) (team_name : string) :
  exists points,
    get_column (columns (add_points_from_match_column df team_name))
               "points_from_match" = Some points /\
    length points = len df /\
    Forall (fun p => p = 0 \/ p = 1 \/ p = 3) points /\
    (NoDup (index df) ->
     Forall2 (fun r p =>
                (home_team (snd r) = team_name ->
                 awards (home_score (snd r)) (away_score (snd r)) p) /\
                (home_team (snd r) <> team_name -> away_team (snd r) = team_name ->
                 awards (away_score (snd r)) (home_score (snd r)) p))
             (rows df) points).
Proof.
  exists (points_column team_name (rows df)).
  split; [apply add_points_column |].
  split; [apply points_column_length |].
  split; [apply points_column_range |].
  intros Hnd. rewrite points_column_unique_labels by exact Hnd.
  clear Hnd. induction (rows df) as [|r rs IH]; simpl; constructor; [| exact IH].
  destruct (points_of_row_awards team_name (snd r)) as (_ & H2 & H3 & _).
  split; assumption.
Qed.

(** A write by label reaches every row that carries the label: here the win
    of the first row is also written to the second, which shares its label. *)
Lemma shared_label_shares_points :
  get_column (columns (add_points_from_match_column sample_shared_label "Sunderland"))
             "points_from_match" = Some [3; 3].
Proof. reflexivity. Qed.

(** The points rule does not hold on every frame: in [sample_overwritten_win]
    the home win of the first row ends with the 0 that the second row, which
    shares its label, writes later. *)
Lemma points_rule_fails_on_shared_labels :
  ~ exists points,
      get_column (columns (add_points_from_match_column sample_overwritten_win "Sunderland"))
                 "points_from_match" = Some points /\
      Forall2 (fun r p =>
                 (p = 0 \/ p = 1 \/ p = 3) /\
                 (home_team (snd r) = "Sunderland" ->
                  awards (home_score (snd r)) (away_score (snd r)) p) /\
                 (home_team (snd r) <> "Sunderland" -> away_team (snd r) = "Sunderland" ->
                  awards (away_score (snd r)) (home_score (snd r)) p))
              (rows sample_overwritten_win) points.
Proof.
  intros (points & Hcol & Hall).
  vm_compute in Hcol. injection Hcol as <-.
  inversion Hall as [|r p rs ps (_ & Hhome & _) _]; subst.
  specialize (Hhome eq_refl). simpl in Hhome.
  inversion Hhome. lia.
Qed.

(** A row without the team does not keep its 0 on every frame: in
    [sample_shared_label] the second row is a match of two other teams and
    ends with the 3 written for the first row, which shares its label. *)
Lemma uninvolved_row_changes_on_shared_labels :
  ~ exists points,
      get_column (columns (add_points_from_match_column sample_shared_label "Sunderland"))
                 "points_from_match" = Some points /\
      Forall2 (fun r p =>
                 home_team (snd r) <> "Sunderland" -> away_team (snd r) <> "Sunderland" ->
                 p = 0)
              (rows sample_shared_label) points.
Proof.
  intros (points & Hcol & Hall).
  vm_compute in Hcol. injection Hcol as <-.
  inversion Hall as [|r p rs ps _ Hrest]; subst.
  inversion Hrest as [|r' p' rs' ps' Hrow _]; subst.
  simpl in Hrow.
  assert (H : 3 = 0) by (apply Hrow; discriminate).
  discriminate.
Qed.

(** C9: on a frame whose rows have labels of their own, a row in which the
    named team plays neither at home nor away keeps the 0 the column starts
    with. *)
Theorem uninvolved_rows_keep_zero (df : DataFrame) (team_name : string) :
  NoDup (index df) ->
  exists points,
    get_column (columns (add_points_from_match_column df team_name))
               "points_from_match" = Some points /\
    Forall2 (fun r p =>
               home_team (snd r) <> team_name -> away_team (snd r) <> team_name -> p = 0)
            (rows df) points.
Proof.
  intros Hnd. exists (map (fun r => points_of_row team_name (snd r)) (rows df)).
  split.
  - now rewrite add_points_column, points_column_unique_labels.
  - induction (rows df) as [|r rs IH]; simpl; constructor; [| exact IH].
    now destruct (points_of_row_awards team_name (snd r)) as (_ & _ & _ & H).
Qed.

Ltac distinct_labels :=
  repeat (apply NoDup_cons; [simpl; intuition discriminate |]); apply NoDup_nil.

Lemma points_from_match_rule_witness :
  exists points,
    get_column (columns (add_points_from_match_column sample_matches "Sunderland"))
               "points_from_match" = Some points /\
    Forall (fun p => p = 0 \/ p = 1 \/ p = 3) points /\
    Forall2 (fun r p =>
               (home_team (snd r) = "Sunderland" ->
                awards (home_score (snd r)) (away_score (snd r)) p) /\
               (home_team (snd r) <> "Sunderland" -> away_team (snd r) = "Sunderland" ->
                awards (away_score (snd r)) (home_score (snd r)) p))
            (rows sample_matches) points.
Proof.
  destruct (points_from_match_rule sample_matches "Sunderland")
    as (points & Hcol & _ & Hrange & Hrule).
  exists points. split; [exact Hcol | split; [exact Hrange |]].
  apply Hrule. unfold index. simpl. distinct_labels.
Defined.

Lemma uninvolved_rows_keep_zero_witness :
  exists points,
    get_column (columns (add_points_from_match_column sample_season "Sunderland"))
               "points_from_match" = Some points /\
    Forall2 (fun r p =>
               home_team (snd r) <> "Sunderland" -> away_team (snd r) <> "Sunderland" ->
               p = 0)
            (rows sample_season) points.
Proof.
  apply (uninvolved_rows_keep_zero sample_season "Sunderland").
  unfold index. simpl. distinct_labels.
Defined.

(** ** Frame preservation *)

Lemma add_points_frame (df : DataFrame) (team_name : string) :
  let df' := add_points_from_match_column df team_name in
  rows df' = rows df /\
  (forall other, other <> "points_from_match" ->
     get_column (columns df') other = get_column (columns df) other) /\
  map fst (columns df') =
    if has_column (columns df) "points_from_match" then map fst (columns df)
    else map fst (columns df) ++ ["points_from_match"].
Proof.
  unfold add_points_from_match_column.
  set (df0 := set_column df "points_from_match" (repeat 0 (len df))).
  destruct (points_loop_frame team_name (rows df0) df0) as (Hrows & Hnames & Hother).
  cbv zeta. split; [exact Hrows | split].
  - intros other Hne. rewrite (Hother other Hne). now apply get_set_column_ne.
  - rewrite Hnames. apply names_set_column.
Qed.

Lemma add_managerial_change_shape (df df' : DataFrame) (hire1 hire2 : Timestamp) (n N : Z) :
  add_managerial_change_column df hire1 hire2 n N = Ok df' ->
  ((n = 1 \/ n = 2) /\
   exists labels, length labels = len df /\
                  df' = set_column df "is_manager_bounce" labels) \/
  (n <> 1 /\ n <> 2 /\ df' = df).
Proof.
  intros Hrun.
  destruct (Z.eq_dec n 1) as [-> | H1]; [| destruct (Z.eq_dec n 2) as [-> | H2]].
  - rewrite single_hire_labels in Hrun.
    destruct (iloc _ _) as [l|e]; simpl in Hrun; [| discriminate].
    injection Hrun as <-. left. split; [now left |].
    eexists. split; [| reflexivity]. now rewrite length_map, len_match_date.
  - rewrite two_hire_labels in Hrun.
    destruct (iloc _ _) as [l1|e]; simpl in Hrun; [| discriminate].
    destruct (iloc _ _) as [l2|e]; simpl in Hrun; [| discriminate].
    injection Hrun as <-. left. split; [now right |].
    eexists. split; [| reflexivity]. now rewrite length_map, len_match_date.
  - rewrite labeller_skips in Hrun by assumption.
    injection Hrun as <-. now right.
Qed.

(** C10: both column-adding functions keep the rows (their labels, their
    five match columns and their order) and every column other than their
    own; [add_points_from_match_column] adds [points_from_match] and
    [add_managerial_change_column], when it returns, adds
    [is_manager_bounce] (for one or two hired managers) and nothing else. *)
Theorem column_adding_preserves_frame (df : DataFrame) (team_name : string)
        (hire1 hire2 : Timestamp) (n N : Z) :
  (let df' := add_points_from_match_column df team_name in
   rows df' = rows df /\
   (forall other, other <> "points_from_match" ->
      get_column (columns df') other = get_column (columns df) other) /\
   map fst (columns df') =
     if has_column (columns df) "points_from_match" then map fst (columns df)
     else map fst (columns df) ++ ["points_from_match"]) /\
  (forall df',
     add_managerial_change_column df hire1 hire2 n N = Ok df' ->
     rows df' = rows df /\
     (forall other, other <> "is_manager_bounce" ->
        get_column (columns df') other = get_column (columns df) other) /\
     map fst (columns df') =
       if has_column (columns df) "is_manager_bounce" || negb ((n =? 1) || (n =? 2))
       then map fst (columns df)
       else map fst (columns df) ++ ["is_manager_bounce"]).
Proof.
  split; [apply add_points_frame |].
  intros df' Hrun.
  destruct (add_managerial_change_shape _ _ _ _ _ _ Hrun)
    as [[Hn (labels & _ & ->)] | (H1 & H2 & ->)].
  - split; [reflexivity | split].
    + intros other Hne. now apply get_set_column_ne.
    + rewrite names_set_column.
      replace ((n =? 1) || (n =? 2)) with true
        by (symmetry; destruct Hn as [-> | ->]; reflexivity).
      simpl. now rewrite orb_false_r.
  - split; [reflexivity | split; [reflexivity |]].
    replace (n =? 1) with false by (symmetry; now apply Z.eqb_neq).
    replace (n =? 2) with false by (symmetry; now apply Z.eqb_neq).
    simpl. now rewrite orb_true_r.
Qed.

Lemma column_adding_preserves_frame_witness :
  exists df',
    add_managerial_change_column sample_matches 20151009
      default_second_manager_hire_date 1 5 = Ok df' /\
    rows df' = rows sample_matches /\
    map fst (columns df') = ["match_week"; "is_manager_bounce"] /\
    map fst (columns (add_points_from_match_column sample_matches "Sunderland")) =
      ["match_week"; "points_from_match"].
Proof.
  destruct (column_adding_preserves_frame sample_matches "Sunderland" 20151009
              default_second_manager_hire_date 1 5) as [(_ & _ & Hpoints) Hlabel].
  eexists. split; [reflexivity |].
  destruct (Hlabel _ eq_refl) as (Hrows & _ & Hnames).
  split; [exact Hrows | split; [exact Hnames | exact Hpoints]].
Defined.

(** ** Two runs on the same fetched data *)

Lemma get_column_map_values (f : list Z -> list Z) (cols : list (string * list Z))
      (name : string) :
  get_column (map (fun cv => (fst cv, f (snd cv))) cols) name =
  option_map f (get_column cols name).
Proof.
  induction cols as [|[c v] cols IH]; simpl; [reflexivity |].
  destruct (String.eqb c name); [reflexivity | exact IH].
Qed.

Lemma agree_sort_values (df1 df2 : DataFrame) :
  agree df1 df2 -> agree (sort_values_by_match_date df1) (sort_values_by_match_date df2).
Proof.
  intros [Hrows Hcol]. unfold agree, sort_values_by_match_date, col_match_date; simpl.
  rewrite !get_column_map_values, Hrows, Hcol. split; reflexivity.
Qed.

Lemma agree_boolean_index (df1 df2 : DataFrame) (mask : list bool) :
  agree df1 df2 -> agree (df_boolean_index df1 mask) (df_boolean_index df2 mask).
Proof.
  intros [Hrows Hcol]. unfold agree, df_boolean_index; simpl.
  rewrite !(get_column_map_values (fun v => boolean_index v mask)), Hrows, Hcol.
  split; reflexivity.
Qed.

Lemma agree_load (sb1 sb2 : StatsBomb) (league_name season_name : string) :
  same_fetch sb1 sb2 ->
  agree_result (SB_load_matches_from_season sb1 league_name season_name)
               (SB_load_matches_from_season sb2 league_name season_name).
Proof.
  intros [Hcomp Hmatches]. unfold SB_load_matches_from_season. rewrite Hcomp.
  destruct (iloc (map competition_id _) 0) as [comp_id|e]; simpl; [| reflexivity].
  destruct (iloc (map season_id _) 0) as [seas_id|e]; simpl; [| reflexivity].
  apply agree_sort_values, Hmatches.
Qed.

Lemma agree_extract (sb1 sb2 : StatsBomb) (league_name season_name team_name : string) :
  same_fetch sb1 sb2 ->
  agree_result
    (extract_teams_matches_during_season sb1 league_name season_name team_name)
    (extract_teams_matches_during_season sb2 league_name season_name team_name).
Proof.
  intros Hsame. unfold extract_teams_matches_during_season.
  assert (Hload := agree_load sb1 sb2 league_name season_name Hsame).
  destruct (SB_load_matches_from_season sb1 _ _) as [all1|e1],
           (SB_load_matches_from_season sb2 _ _) as [all2|e2];
    simpl in *; try contradiction; [| exact Hload].
  apply agree_sort_values.
  destruct Hload as [Hrows Hcol]. rewrite Hrows.
  apply agree_boolean_index. now split.
Qed.

Lemma agree_set_labels (df1 df2 : DataFrame) (labels : list Z) :
  agree df1 df2 ->
  agree (set_column df1 "is_manager_bounce" labels)
        (set_column df2 "is_manager_bounce" labels).
Proof.
  intros [Hrows _]. split; [exact Hrows |].
  now rewrite !get_set_column_eq.
Qed.

Lemma agree_labeller (df1 df2 : DataFrame) (hire1 hire2 : Timestamp) (n N : Z) :
  agree df1 df2 ->
  agree_result (add_managerial_change_column df1 hire1 hire2 n N)
               (add_managerial_change_column df2 hire1 hire2 n N).
Proof.
  intros Hagree.
  assert (Hdates : col_match_date df1 = col_match_date df2)
    by (unfold col_match_date; now rewrite (proj1 Hagree)).
  destruct (Z.eq_dec n 1) as [-> | H1]; [| destruct (Z.eq_dec n 2) as [-> | H2]].
  - rewrite !single_hire_labels, Hdates.
    destruct (iloc _ _) as [l|e]; simpl; [| reflexivity].
    now apply agree_set_labels.
  - rewrite !two_hire_labels, Hdates.
    destruct (iloc _ _) as [l1|e]; simpl; [| reflexivity].
    destruct (iloc _ _) as [l2|e]; simpl; [| reflexivity].
    now apply agree_set_labels.
  - rewrite !labeller_skips by assumption. exact Hagree.
Qed.

Lemma agree_points (df1 df2 : DataFrame) (team_name : string) :
  agree df1 df2 ->
  labels_and_points (Ok (add_points_from_match_column df1 team_name)) =
  labels_and_points (Ok (add_points_from_match_column df2 team_name)).
Proof.
  intros [Hrows Hcol]. unfold labels_and_points; simpl.
  rewrite !add_points_column, Hrows.
  destruct (add_points_frame df1 team_name) as (_ & Hother1 & _).
  destruct (add_points_frame df2 team_name) as (_ & Hother2 & _).
  rewrite Hother1, Hother2 by discriminate.
  now rewrite Hcol.
Qed.

(** C7: two runs of the pipeline for the same team and hire dates, on
    fetches that return the same competitions and the same matches, end the
    same way: both raise the same exception, or both return frames with the
    same bounce labels and the same points. *)
Theorem pipeline_deterministic (sb1 sb2 : StatsBomb) (team_name : string)
        (hire1 hire2 : Timestamp) (n N : Z) :
  same_fetch sb1 sb2 ->
  labels_and_points
    (add_manager_change_and_points_won_columns_to_df sb1 team_name hire1 hire2 n N) =
  labels_and_points
    (add_manager_change_and_points_won_columns_to_df sb2 team_name hire1 hire2 n N).
Proof.
  intros Hsame. unfold add_manager_change_and_points_won_columns_to_df.
  assert (Hextract := agree_extract sb1 sb2 "Premier League" "2015/2016" team_name Hsame).
  destruct (extract_teams_matches_during_season sb1 _ _ _) as [d1|e1],
           (extract_teams_matches_during_season sb2 _ _ _) as [d2|e2];
    simpl in Hextract; try contradiction; [| now subst].
  assert (Hlabel := agree_labeller d1 d2 hire1 hire2 n N Hextract).
  cbn [bind].
  destruct (add_managerial_change_column d1 _ _ _ _) as [d1'|e1],
           (add_managerial_change_column d2 _ _ _ _) as [d2'|e2];
    simpl in Hlabel; try contradiction; [| now subst].
  cbn [bind]. now apply agree_points.
Qed.

Lemma pipeline_deterministic_witness :
  labels_and_points
    (add_manager_change_and_points_won_columns_to_df (sample_provider sample_season)
       "Sunderland" 20151009 default_second_manager_hire_date 1 5) =
  labels_and_points
    (add_manager_change_and_points_won_columns_to_df
       (sample_provider sample_season_with_attendance)
       "Sunderland" 20151009 default_second_manager_hire_date 1 5).
Proof.
  apply (pipeline_deterministic (sample_provider sample_season)
           (sample_provider sample_season_with_attendance)).
  split; [reflexivity |].
  intros comp_id seas_id. simpl.
  destruct ((comp_id =? 2) && (seas_id =? 27)); split; reflexivity.
Defined.

(** ** Groups, sample sizes and means *)

(** For one or two hired managers, what the pipeline returns is labelled. *)
Lemma run_labelled (sb : StatsBomb) (team_name : string) (hire1 hire2 : Timestamp)
      (n N : Z) (df : DataFrame) :
  n = 1 \/ n = 2 ->
  add_manager_change_and_points_won_columns_to_df sb team_name hire1 hire2 n N = Ok df ->
  exists labels points, labelled df labels points.
Proof.
  intros Hn Hrun. unfold add_manager_change_and_points_won_columns_to_df in Hrun.
  destruct (extract_teams_matches_during_season sb _ _ _) as [d|e];
    simpl in Hrun; [| discriminate].
  destruct (add_managerial_change_column d hire1 hire2 n N) as [d'|e] eqn:Hlabel;
    simpl in Hrun; [| discriminate].
  injection Hrun as <-.
  destruct (add_managerial_change_shape _ _ _ _ _ _ Hlabel)
    as [[_ (labels & Hlen & ->)] | (H1 & H2 & _)]; [| lia].
  destruct (add_points_frame (set_column d "is_manager_bounce" labels) team_name)
    as (Hrows & Hother & _).
  exists labels, (points_column team_name (rows d)).
  unfold labelled, len. rewrite Hrows. repeat split.
  - rewrite Hother by discriminate. apply get_set_column_eq.
  - exact (add_points_column (set_column d "is_manager_bounce" labels) team_name).
  - exact Hlen.
  - apply points_column_length.
Qed.

Lemma points_where_labelled (df : DataFrame) (labels points : list Z) (label : Z) :
  labelled df labels points ->
  points_where df label = Ok (points_of_group label labels points).
Proof.
  intros (Hlabels & Hpoints & _). unfold points_where, getitem.
  rewrite Hlabels, Hpoints. simpl. f_equal.
  clear. revert points.
  induction labels as [|b labels IH]; intros [|p points]; simpl; try reflexivity.
  destruct (Z.eq_dec b label) as [Heq|Hne].
  - replace (b =? label) with true by (symmetry; now apply Z.eqb_eq).
    now rewrite IH.
  - replace (b =? label) with false by (symmetry; now apply Z.eqb_neq).
    apply IH.
Qed.

Lemma points_of_group_length (label : Z) (labels points : list Z) :
  length labels = length points ->
  length (points_of_group label labels points) = count_label label labels.
Proof.
  unfold count_label. revert points.
  induction labels as [|b labels IH]; intros [|p points] Hlen; simpl in *;
    try discriminate; [reflexivity |].
  injection Hlen as Hlen.
  destruct (Z.eq_dec b label); simpl; now rewrite IH.
Qed.

Lemma for_each_Ok {A B : Type} (f : A -> result B) (l : list A) (bs : list B) :
  for_each f l = Ok bs -> Forall2 (fun a b => f a = Ok b) l bs.
Proof.
  revert bs. induction l as [|a l IH]; intros bs Hrun; simpl in Hrun.
  - injection Hrun as <-. constructor.
  - destruct (f a) as [b|e] eqn:Hb; simpl in Hrun; [| discriminate].
    destruct (for_each f l) as [bs'|e]; simpl in Hrun; [| discriminate].
    injection Hrun as <-. constructor; [exact Hb | now apply IH].
Qed.

Lemma np_mean_is_mean (values : list Z) : is_mean values (np_mean values).
Proof.
  destruct values as [|v values]; [reflexivity |].
  unfold np_mean, is_mean. split; [discriminate |].
  rewrite Qmake_Qdiv.
  replace (Z.pos (Pos.of_nat (length (v :: values))))
    with (Z.of_nat (length (v :: values))); [reflexivity |].
  simpl length. lia.
Qed.

Lemma pooled_length (label : Z) (frames : list LabelledFrame) :
  Forall (fun f => length (frame_labels f) = length (frame_points f)) frames ->
  length (pooled label frames) = group_size label frames.
Proof.
  unfold pooled, group_size. rewrite length_flat_map.
  induction 1 as [|f frames Hf _ IH]; simpl; [reflexivity |].
  now rewrite IH, points_of_group_length.
Qed.

Lemma labelled_frames (sb : StatsBomb) (changes : list ManagerialChange)
      (groups : list (list Z * list Z)) :
  Forall (fun c => hired_managers c = 1 \/ hired_managers c = 2) changes ->
  Forall2 (fun c g =>
             (matches <- run_change sb c ;;
              points_bounce <- points_where matches 1 ;;
              points_no_bounce <- points_where matches 0 ;;
              Ok (points_bounce, points_no_bounce)) = Ok g)
          changes groups ->
  exists frames,
    Forall2 (fun c f => run_change sb c = Ok (frame f) /\
                        labelled (frame f) (frame_labels f) (frame_points f))
            changes frames /\
    groups = map (fun f => (points_of_group 1 (frame_labels f) (frame_points f),
                            points_of_group 0 (frame_labels f) (frame_points f)))
                 frames.
Proof.
  intros Hcounts Hruns. induction Hruns as [|c g changes groups Hrun _ IH].
  - exists []. split; [constructor | reflexivity].
  - apply Forall_cons_iff in Hcounts. destruct Hcounts as [Hc Hcounts].
    destruct (IH Hcounts) as (frames & Hframes & ->).
    destruct (run_change sb c) as [df|e] eqn:Hdf; simpl in Hrun; [| discriminate].
    destruct (run_labelled _ _ _ _ _ _ _ Hc Hdf) as (labels & points & Hlabelled).
    rewrite !(points_where_labelled df labels points) in Hrun by exact Hlabelled.
    simpl in Hrun. injection Hrun as <-.
    exists (mkLabelled df labels points :: frames).
    split; [constructor; [now split | exact Hframes] | reflexivity].
Qed.

Lemma labelled_frames_lengths (sb : StatsBomb) (changes : list ManagerialChange)
      (frames : list LabelledFrame) :
  Forall2 (fun c f => run_change sb c = Ok (frame f) /\
                      labelled (frame f) (frame_labels f) (frame_points f))
          changes frames ->
  Forall (fun f => length (frame_labels f) = length (frame_points f)) frames.
Proof.
  induction 1 as [|c f cs fs [_ Hf] _ IH]; constructor; [| exact IH].
  destruct Hf as (_ & _ & H1 & H2). congruence.
Qed.

(** A chart of the overall plot comes from the pooled groups of six runs
    that all returned. *)
Lemma overall_plot_Ok (ttest_ind : list Z -> list Z -> option Q) (sb : StatsBomb)
      (chart : Chart) :
  plot_overall_points_per_game_diff ttest_ind sb = Ok chart ->
  exists groups,
    Forall2 (fun c g =>
               (matches <- run_change sb c ;;
                points_bounce <- points_where matches 1 ;;
                points_no_bounce <- points_where matches 0 ;;
                Ok (points_bounce, points_no_bounce)) = Ok g)
            managerial_changes groups /\
    bar_heights chart =
      (np_mean (concat (map fst groups)), np_mean (concat (map snd groups))) /\
    n_matches chart =
      (length (concat (map fst groups)), length (concat (map snd groups))).
Proof.
  intros Hplot. unfold plot_overall_points_per_game_diff in Hplot.
  destruct (for_each _ managerial_changes) as [groups|e] eqn:Hgroups;
    cbn [bind] in Hplot; [| discriminate].
  destruct (choose_colors _ _) as [colors|e]; cbn [bind] in Hplot; [| discriminate].
  destruct (choose_title _) as [title|e]; cbn [bind] in Hplot; [| discriminate].
  injection Hplot as <-.
  apply for_each_Ok in Hgroups.
  exists groups. split; [exact Hgroups | split; reflexivity].
Qed.

(** C6: when the overall chart is drawn, the six runs behind it returned
    labelled frames, and for each label the bar height is the sum of the
    points of exactly the matches that carry the label over their number
    (the unweighted mean, with nothing to show for an empty group), and the
    [N_matches] annotation is the number of matches that carry the label. *)
Theorem overall_chart_shows_group_means (ttest_ind : list Z -> list Z -> option Q)
        (sb : StatsBomb) (chart : Chart) :
  plot_overall_points_per_game_diff ttest_ind sb = Ok chart ->
  exists frames : list LabelledFrame,
    Forall2 (fun c f => run_change sb c = Ok (frame f) /\
                        labelled (frame f) (frame_labels f) (frame_points f))
            managerial_changes frames /\
    n_matches chart = (group_size 1 frames, group_size 0 frames) /\
    n_matches chart = (length (pooled 1 frames), length (pooled 0 frames)) /\
    is_mean (pooled 1 frames) (fst (bar_heights chart)) /\
    is_mean (pooled 0 frames) (snd (bar_heights chart)).
Proof.
  intros Hplot.
  destruct (overall_plot_Ok _ _ _ Hplot) as (groups & Hgroups & Hheights & Hsizes).
  assert (Hcounts : Forall (fun c => hired_managers c = 1 \/ hired_managers c = 2)
                           managerial_changes).
  { unfold managerial_changes. repeat constructor; simpl; lia. }
  destruct (labelled_frames sb managerial_changes groups Hcounts Hgroups)
    as (frames & Hframes & ->).
  assert (Hlens := labelled_frames_lengths _ _ _ Hframes).
  assert (Hpool : forall label (pick : list Z * list Z -> list Z),
            (forall f, pick (points_of_group 1 (frame_labels f) (frame_points f),
                             points_of_group 0 (frame_labels f) (frame_points f)) =
                       points_of_group label (frame_labels f) (frame_points f)) ->
            concat (map pick (map (fun f =>
                       (points_of_group 1 (frame_labels f) (frame_points f),
                        points_of_group 0 (frame_labels f) (frame_points f))) frames)) =
            pooled label frames).
  { intros label pick Hpick. unfold pooled.
    rewrite map_map, flat_map_concat_map. f_equal. apply map_ext. exact Hpick. }
  exists frames. rewrite Hheights, Hsizes. cbn [fst snd].
  rewrite (Hpool 1 fst) by reflexivity. rewrite (Hpool 0 snd) by reflexivity.
  split; [exact Hframes |].
  split; [now rewrite !pooled_length |].
  split; [reflexivity |].
  split; apply np_mean_is_mean.
Qed.

Lemma overall_chart_shows_group_means_witness :
  plot_overall_points_per_game_diff sample_ttest_ind (sample_provider sample_six_teams) =
    Ok sample_overall_chart /\
  exists frames : list LabelledFrame,
    n_matches sample_overall_chart = (group_size 1 frames, group_size 0 frames) /\
    is_mean (pooled 1 frames) (fst (bar_heights sample_overall_chart)) /\
    is_mean (pooled 0 frames) (snd (bar_heights sample_overall_chart)).
Proof.
  assert (Hplot : plot_overall_points_per_game_diff sample_ttest_ind
                    (sample_provider sample_six_teams) =
                  Ok sample_overall_chart) by (vm_compute; reflexivity).
  split; [exact Hplot |].
  destruct (overall_chart_shows_group_means _ _ _ Hplot)
    as (frames & _ & Hsizes & _ & Hbounce & Hnon).
  exists frames. split; [exact Hsizes | split; [exact Hbounce | exact Hnon]].
Defined.

(** * Further properties of the code *)

(** ** Sorting by match date *)

Lemma insert_by_date_perm (p : nat * Z) (l : list (nat * Z)) :
  Permutation (insert_by_date p l) (p :: l).
Proof.
  induction l as [|q l IH]; simpl; [reflexivity |].
  destruct (snd p <=? snd q); [reflexivity |].
  rewrite IH. apply perm_swap.
Qed.

Lemma insertion_sort_perm (l : list (nat * Z)) :
  Permutation (fold_right insert_by_date [] l) l.
Proof.
  induction l as [|p l IH]; simpl; [reflexivity |].
  rewrite insert_by_date_perm. now apply perm_skip.
Qed.

Lemma insert_by_date_sorted (p : nat * Z) (l : list (nat * Z)) :
  StronglySorted (fun a b => snd a <= snd b) l ->
  StronglySorted (fun a b => snd a <= snd b) (insert_by_date p l).
Proof.
  induction 1 as [|q l Hsorted IH Hall]; simpl; [repeat constructor |].
  destruct (Z.leb_spec (snd p) (snd q)) as [Hle|Hgt].
  - constructor; [now constructor |].
    constructor; [exact Hle |].
    rewrite Forall_forall in *. intros x Hx. specialize (Hall x Hx). lia.
  - constructor; [exact IH |].
    rewrite Forall_forall in *. intros x Hx.
    apply (Permutation_in _ (insert_by_date_perm p l)) in Hx.
    destruct Hx as [<- | Hx]; [lia | now apply Hall].
Qed.

Lemma insertion_sort_sorted (l : list (nat * Z)) :
  StronglySorted (fun a b => snd a <= snd b) (fold_right insert_by_date [] l).
Proof.
  induction l as [|p l IH]; simpl; [constructor | now apply insert_by_date_sorted].
Qed.

Lemma combine_seq_lookup {A : Type} (l : list A) (start : nat) (p : nat) (x : A) :
  In (p, x) (combine (seq start (length l)) l) ->
  (start <= p)%nat /\ nth_error l (p - start) = Some x.
Proof.
  revert start. induction l as [|y l IH]; intros start Hin; simpl in Hin; [contradiction |].
  destruct Hin as [Heq | Hin].
  - injection Heq as <- <-. split; [lia |]. now rewrite Nat.sub_diag.
  - destruct (IH (S start) Hin) as [Hle Hnth]. split; [lia |].
    replace (p - start)%nat with (S (p - S start)) by lia. exact Hnth.
Qed.

Lemma map_fst_combine {A B : Type} (l : list A) (m : list B) :
  length l = length m -> map fst (combine l m) = l.
Proof.
  revert m. induction l as [|a l IH]; intros [|b m] Hlen; simpl in *;
    try discriminate; [reflexivity |].
  f_equal. apply IH. now injection Hlen.
Qed.

Lemma argsort_perm (keys : list Z) :
  Permutation (argsort keys) (seq 0 (length keys)).
Proof.
  unfold argsort.
  rewrite <- (map_fst_combine (seq 0 (length keys)) keys) at 2
    by apply length_seq.
  apply Permutation_map, insertion_sort_perm.
Qed.

Lemma gather_seq {A : Type} (pre l : list A) :
  gather (seq (length pre) (length l)) (pre ++ l) = l.
Proof.
  revert pre. induction l as [|x l IH]; intros pre; [reflexivity |].
  unfold gather in *. simpl.
  rewrite nth_error_app2, Nat.sub_diag by lia. simpl. f_equal.
  specialize (IH (pre ++ [x])).
  rewrite length_app, <- app_assoc in IH. simpl in IH.
  now rewrite Nat.add_1_r in IH.
Qed.

Lemma gather_perm {A : Type} (pos : list nat) (l : list A) :
  Permutation pos (seq 0 (length l)) -> Permutation (gather pos l) l.
Proof.
  intros Hperm. unfold gather.
  rewrite (Permutation_flat_map _ Hperm).
  change (Permutation (gather (seq (length (@nil A)) (length l)) ([] ++ l)) l).
  now rewrite gather_seq.
Qed.

Lemma gather_map {A B : Type} (f : A -> B) (pos : list nat) (l : list A) :
  map f (gather pos l) = gather pos (map f l).
Proof.
  unfold gather. induction pos as [|p pos IH]; simpl; [reflexivity |].
  rewrite map_app, IH, nth_error_map.
  now destruct (nth_error l p).
Qed.

Lemma gather_positions_keys (keys : list Z) (pairs : list (nat * Z)) :
  Forall (fun pk => nth_error keys (fst pk) = Some (snd pk)) pairs ->
  gather (map fst pairs) keys = map snd pairs.
Proof.
  unfold gather. induction 1 as [|pk pairs Hpk _ IH]; simpl; [reflexivity |].
  now rewrite Hpk, IH.
Qed.

Lemma gather_argsort_sorted (keys : list Z) :
  StronglySorted Z.le (gather (argsort keys) keys).
Proof.
  unfold argsort.
  set (pairs := fold_right insert_by_date [] (combine (seq 0 (length keys)) keys)).
  rewrite gather_positions_keys.
  - assert (Hsorted := insertion_sort_sorted (combine (seq 0 (length keys)) keys)).
    fold pairs in Hsorted.
    induction Hsorted as [|pk ps _ IH Hall]; simpl; constructor; [exact IH |].
    rewrite Forall_forall in *. intros k Hk.
    apply in_map_iff in Hk. destruct Hk as (q & <- & Hq). now apply Hall.
  - rewrite Forall_forall. intros [p k] Hin.
    apply (Permutation_in _ (insertion_sort_perm _)) in Hin.
    apply combine_seq_lookup in Hin. simpl.
    destruct Hin as [_ Hnth]. now rewrite Nat.sub_0_r in Hnth.
Qed.

(** [sort_values(by="match_date")] keeps every row once and puts the rows in
    ascending date order. *)
Lemma sort_values_permutes_and_sorts (df : DataFrame) :
  Permutation (rows (sort_values_by_match_date df)) (rows df) /\
  StronglySorted Z.le (col_match_date (sort_values_by_match_date df)).
Proof.
  unfold sort_values_by_match_date, col_match_date; simpl. split.
  - apply gather_perm. rewrite <- (length_map (fun r => match_date (snd r))).
    apply argsort_perm.
  - rewrite gather_map. apply gather_argsort_sorted.
Qed.

(** ** The match loader and the team match extractor *)

Lemma Permutation_filter {A : Type} (p : A -> bool) (l m : list A) :
  Permutation l m -> Permutation (filter p l) (filter p m).
Proof.
  induction 1 as [| x l m _ IH | x y l | l m n _ IH1 _ IH2]; simpl.
  - constructor.
  - destruct (p x); [now constructor | exact IH].
  - destruct (p x), (p y); try reflexivity. apply perm_swap.
  - now transitivity (filter p m).
Qed.

Lemma iloc_first {A B : Type} (f : A -> B) (p : A -> bool) (l : list A) :
  iloc (map f (filter p l)) 0 =
  match find p l with
  | Some a => Ok (f a)
  | None => Raise IndexError
  end.
Proof.
  induction l as [|a l IH]; simpl; [reflexivity |].
  destruct (p a); simpl; [| exact IH].
  unfold iloc. simpl length.
  replace (0 <? - Z.of_nat (S (length (map f (filter p l))))) with false
    by (symmetry; apply Z.ltb_ge; lia).
  replace (Z.of_nat (S (length (map f (filter p l)))) <=? 0) with false
    by (symmetry; apply Z.leb_gt; lia).
  reflexivity.
Qed.

(** The loader resolves both identifiers from the first competition row with
    the league and season names, and raises [IndexError] when there is none. *)
Lemma load_by_first_match (sb : StatsBomb) (league_name season_name : string) :
  SB_load_matches_from_season sb league_name season_name =
  match find (is_league_season league_name season_name) (competitions sb) with
  | Some c => Ok (sort_values_by_match_date (matches sb (competition_id c) (season_id c)))
  | None => Raise IndexError
  end.
Proof.
  unfold SB_load_matches_from_season. rewrite !iloc_first.
  now destruct (find _ _).
Qed.

(** X1: when no competition row carries the league and season names, the
    loader raises [IndexError] and so does the extractor; for the league and
    season the script asks for, the pipeline and both plots raise it too, so
    no chart is drawn. *)
Theorem unknown_league_or_season_raises (sb : StatsBomb) (league season team_name : string) :
  Forall (fun c => competition_name c <> league \/ season_name c <> season)
         (competitions sb) ->
  SB_load_matches_from_season sb league season = Raise IndexError /\
  extract_teams_matches_during_season sb league season team_name = Raise IndexError /\
  (league = "Premier League" -> season = "2015/2016" ->
   (forall hire1 hire2 n N,
      add_manager_change_and_points_won_columns_to_df sb team_name hire1 hire2 n N =
        Raise IndexError /\
      forall ttest_ind,
        plot_teams_points_per_game_diff ttest_ind sb team_name hire1 hire2 n N =
          Raise IndexError) /\
   forall ttest_ind, plot_overall_points_per_game_diff ttest_ind sb = Raise IndexError).
Proof.
  intros Hnone.
  assert (Hfind : find (is_league_season league season) (competitions sb) = None).
  { induction Hnone as [|c cs Hc _ IH]; simpl; [reflexivity |].
    unfold is_league_season at 1.
    destruct Hc as [Hc | Hc]; apply String.eqb_neq in Hc; rewrite Hc;
      [| rewrite andb_false_r]; exact IH. }
  assert (Hload : SB_load_matches_from_season sb league season = Raise IndexError)
    by now rewrite load_by_first_match, Hfind.
  assert (Hextract : forall t,
            extract_teams_matches_during_season sb league season t = Raise IndexError).
  { intros t. unfold extract_teams_matches_during_season. now rewrite Hload. }
  split; [exact Hload | split; [apply Hextract |]].
  intros -> ->.
  assert (Hrun : forall t hire1 hire2 n N,
            add_manager_change_and_points_won_columns_to_df sb t hire1 hire2 n N =
            Raise IndexError).
  { intros. unfold add_manager_change_and_points_won_columns_to_df.
    now rewrite Hextract. }
  split.
  - intros hire1 hire2 n N. split; [apply Hrun |]. intros ttest_ind.
    unfold plot_teams_points_per_game_diff, bounce_and_non_bounce_points.
    now rewrite Hrun.
  - intros ttest_ind. unfold plot_overall_points_per_game_diff, managerial_changes.
    cbn [for_each]. unfold run_change. now rewrite Hrun.
Qed.

Lemma unknown_league_or_season_raises_example :
  SB_load_matches_from_season (sample_provider sample_season) "La Liga" "2015/2016" =
    Raise IndexError /\
  extract_teams_matches_during_season (sample_provider sample_season)
    "La Liga" "2015/2016" "Sunderland" = Raise IndexError.
Proof.
  destruct (unknown_league_or_season_raises (sample_provider sample_season)
              "La Liga" "2015/2016" "Sunderland") as (Hload & Hextract & _).
  - constructor; [left; discriminate | constructor].
  - split; [exact Hload | exact Hextract].
Defined.

Lemma extractor_mask (team_name : string) (rs : list (Z * Match)) :
  mask_or (map (fun r => String.eqb (home_team (snd r)) team_name) rs)
          (map (fun r => String.eqb (away_team (snd r)) team_name) rs) =
  map (plays team_name) rs.
Proof. unfold mask_or. now rewrite map2_map_map. Qed.

Lemma sorted_distinct_strict (l : list Z) :
  StronglySorted Z.le l -> NoDup l -> StronglySorted Z.lt l.
Proof.
  induction 1 as [|x l Hsorted IH Hall]; intros Hnd; constructor.
  - apply IH. now apply NoDup_cons_iff in Hnd.
  - apply NoDup_cons_iff in Hnd. destruct Hnd as [Hx _].
    rewrite Forall_forall in *. intros y Hy. specialize (Hall y Hy).
    assert (x <> y) by (intros ->; contradiction). lia.
Qed.

(** What the extractor returns once the competition is found. *)
Lemma extractor_sorts_team_matches (sb : StatsBomb)
        (league season team_name : string) (c : Competition) :
  find (is_league_season league season) (competitions sb) = Some c ->
  let fetched := matches sb (competition_id c) (season_id c) in
  exists df,
    extract_teams_matches_during_season sb league season team_name = Ok df /\
    Permutation (rows df) (filter (plays team_name) (rows fetched)) /\
    Forall (fun r => home_team (snd r) = team_name \/ away_team (snd r) = team_name)
           (rows df) /\
    StronglySorted Z.le (col_match_date df) /\
    (NoDup (map date_of (filter (plays team_name) (rows fetched))) ->
     chronological (col_match_date df)).
Proof.
  intros Hfind fetched.
  unfold extract_teams_matches_during_season.
  rewrite load_by_first_match, Hfind. fold fetched. cbn [bind].
  eexists. split; [reflexivity |].
  set (all_matches := sort_values_by_match_date fetched).
  rewrite (extractor_mask team_name (rows all_matches)).
  set (team_matches := df_boolean_index all_matches _).
  destruct (sort_values_permutes_and_sorts team_matches) as [Hperm Hsorted].
  destruct (sort_values_permutes_and_sorts fetched) as [Hperm0 _].
  assert (Hrows : Permutation (rows (sort_values_by_match_date team_matches))
                              (filter (plays team_name) (rows fetched))).
  { rewrite Hperm. unfold team_matches, df_boolean_index. cbn [rows].
    rewrite (boolean_index_map (plays team_name) (rows all_matches)).
    now apply Permutation_filter. }
  split; [exact Hrows | split; [| split; [exact Hsorted |]]].
  - apply (Permutation_Forall (Permutation_sym Hrows)).
    rewrite Forall_forall. intros r Hr. apply filter_In in Hr.
    destruct Hr as [_ Hr]. unfold plays in Hr.
    apply orb_prop in Hr. destruct Hr as [Hr | Hr]; apply String.eqb_eq in Hr; tauto.
  - intros Hnd. apply sorted_distinct_strict; [exact Hsorted |].
    unfold col_match_date.
    apply (Permutation_NoDup (l := map date_of (filter (plays team_name) (rows fetched))));
      [| exact Hnd].
    apply Permutation_sym. exact (Permutation_map date_of Hrows).
Qed.

(** X2: when a competition row carries the league and season names, the
    extractor returns the matches of the first such competition in which the
    team plays, at home or away, each of them once and no other, in
    ascending date order; when the team never plays twice on a day the dates
    are strictly increasing. *)
Theorem extractor_returns_team_matches_in_date_order (sb : StatsBomb)
        (league season team_name : string) (c : Competition) :
  find (is_league_season league season) (competitions sb) = Some c ->
  let fetched := matches sb (competition_id c) (season_id c) in
  exists df,
    extract_teams_matches_during_season sb league season team_name = Ok df /\
    Permutation (rows df) (filter (plays team_name) (rows fetched)) /\
    Forall (fun r => home_team (snd r) = team_name \/ away_team (snd r) = team_name)
           (rows df) /\
    StronglySorted Z.le (col_match_date df) /\
    (NoDup (map date_of (filter (plays team_name) (rows fetched))) ->
     chronological (col_match_date df)).
Proof. exact (extractor_sorts_team_matches sb league season team_name c). Qed.

Lemma extractor_returns_team_matches_in_date_order_example :
  exists df,
    extract_teams_matches_during_season (sample_provider sample_season)
      "Premier League" "2015/2016" "Sunderland" = Ok df /\
    chronological (col_match_date df).
Proof.
  destruct (extractor_returns_team_matches_in_date_order (sample_provider sample_season)
              "Premier League" "2015/2016" "Sunderland"
              (mkCompetition 2 27 "Premier League" "2015/2016") eq_refl)
    as (df & Hrun & _ & _ & _ & Hstrict).
  exists df. split; [exact Hrun |].
  apply Hstrict. simpl. distinct_labels.
Defined.

(** ** More on the bounce labeller *)

Lemma Forall2_map_right {A B : Type} (P : A -> B -> Prop) (f : A -> B) (l : list A) :
  (forall a, P a (f a)) -> Forall2 P l (map f l).
Proof. intros H. induction l; simpl; constructor; auto. Qed.

(** Whenever the labeller writes the column, it is a function of the dates. *)
Lemma labeller_writes (df df' : DataFrame) (hire1 hire2 : Timestamp) (n N : Z) :
  n = 1 \/ n = 2 ->
  add_managerial_change_column df hire1 hire2 n N = Ok df' ->
  exists label : Timestamp -> Z,
    df' = set_column df "is_manager_bounce" (map label (col_match_date df)) /\
    forall d, (label d = 0 \/ label d = 1) /\ (d < hire1 -> label d = 0).
Proof.
  intros [-> | ->] Hrun.
  - rewrite single_hire_labels in Hrun.
    destruct (iloc _ _) as [l|e]; simpl in Hrun; [| discriminate].
    injection Hrun as <-. exists (single_hire_label hire1 l).
    split; [reflexivity |]. intros d. unfold single_hire_label.
    split; [| intros Hd]; decide_dates; auto.
  - rewrite two_hire_labels in Hrun.
    destruct (iloc _ _) as [l1|e]; simpl in Hrun; [| discriminate].
    destruct (iloc _ _) as [l2|e]; simpl in Hrun; [| discriminate].
    injection Hrun as <-. exists (two_hire_label hire1 l1 hire2 l2).
    split; [reflexivity |]. intros d. unfold two_hire_label.
    split; [| intros Hd]; decide_dates; auto.
Qed.



Ltac decide_dates_eq :=
  repeat match goal with
         | |- context [?a <? ?b] => destruct (Z.ltb_spec a b)
         | |- context [?a <=? ?b] => destruct (Z.leb_spec a b)
         | |- context [?a =? ?b] => destruct (Z.eqb_spec a b)
         end;
  simpl; try reflexivity; try lia.

(** The first [N] of the dates that pass a test are the ones among them up
    to the [N]-th. *)
Lemma nth_passing_date (dates : list Timestamp) (p : Timestamp -> bool) (N : Z) :
  chronological dates ->
  1 <= N <= Z.of_nat (length (filter p dates)) ->
  exists l,
    iloc (filter p dates) (N - 1) = Ok l /\
    In l dates /\ p l = true /\
    firstn (Z.to_nat N) (filter p dates) = filter (fun d => p d && (d <=? l)) dates.
Proof.
  intros Hsorted HN.
  destruct (iloc_in_range (filter p dates) (N - 1)) as (l & Hiloc & Hnth); [lia |].
  assert (Hl : In l (filter p dates)) by (eapply nth_error_In; eassumption).
  apply filter_In in Hl. destruct Hl as [Hl Hp].
  exists l. repeat split; try assumption.
  rewrite <- filter_filter.
  rewrite (chronological_prefix _ _ _ (chronological_filter p _ Hsorted) Hnth).
  f_equal. lia.
Qed.

Lemma distinct_dates_on_day (dates : list Timestamp) (day : Timestamp) :
  NoDup dates ->
  length (filter (fun d => d =? day) dates) = if in_window day dates then 1%nat else 0%nat.
Proof.
  unfold in_window. induction 1 as [|d dates Hd _ IH]; simpl; [reflexivity |].
  rewrite (Z.eqb_sym day d).
  destruct (Z.eqb_spec d day) as [-> | Hne]; simpl; [| exact IH].
  rewrite IH.
  destruct (existsb (Z.eqb day) dates) eqn:Hex; [| reflexivity].
  apply existsb_exists in Hex. destruct Hex as (x & Hx & Heq).
  apply Z.eqb_eq in Heq. subst x. contradiction.
Qed.

(** The single-hire branch on dated matches. *)
Lemma single_hire_window (df : DataFrame) (hire second : Timestamp)
        (N : Z) :
  let dates := col_match_date df in
  let next := firstn (Z.to_nat N) (strictly_after hire dates) in
  chronological dates ->
  1 <= N <= Z.of_nat (length (strictly_after hire dates)) ->
  exists df',
    add_managerial_change_column df hire second 1 N = Ok df' /\
    get_column (columns df') "is_manager_bounce" =
      Some (map (fun d => if (d =? hire) || in_window d next then 1 else 0) dates) /\
    Z.of_nat (count_label 1
                (map (fun d => if (d =? hire) || in_window d next then 1 else 0) dates)) =
      N + (if in_window hire dates then 1 else 0).
Proof.
  intros dates next Hsorted HN.
  destruct (nth_passing_date dates (fun d => hire <? d) N Hsorted HN)
    as (l & Hi & Hin & Hl & Hnext).
  apply Z.ltb_lt in Hl.
  fold (strictly_after hire dates) in Hnext. fold next in Hnext.
  assert (Hlabel : forall d, In d dates ->
            (if (d =? hire) || in_window d next then 1 else 0) =
            single_hire_label hire l d).
  { intros d Hd. rewrite Hnext, (in_window_filter _ dates d Hd).
    unfold single_hire_label. decide_dates_eq. }
  exists (set_column df "is_manager_bounce" (map (single_hire_label hire l) dates)).
  rewrite (map_ext_in _ _ _ Hlabel).
  split; [| split].
  - rewrite single_hire_labels. fold dates. now rewrite Hi.
  - apply get_set_column_eq.
  - rewrite <- (map_ext_in _ _ _ Hlabel).
    rewrite count_label_map_indicator, filter_length_split.
    + rewrite (distinct_dates_on_day dates hire (chronological_NoDup _ Hsorted)).
      replace (length (filter (fun d => in_window d next) dates)) with (Z.to_nat N).
      * destruct (in_window hire dates); lia.
      * rewrite (filter_ext_in (fun d => in_window d next)
                               (fun d => (hire <? d) && (d <=? l)) dates).
        -- rewrite <- Hnext. unfold next. rewrite length_firstn. lia.
        -- intros d Hd. now rewrite Hnext, in_window_filter.
    + intros d Hd Heq. apply Z.eqb_eq in Heq. subst d.
      rewrite Hnext, in_window_filter by exact Hd.
      apply andb_false_intro1. apply Z.ltb_irrefl.
Qed.

(** X4: the single-hire branch on a team's dated matches with at least [N]
    matches after the hire date marks the [N] earliest matches dated after
    the hire date and, if there is one, the match on the hire date itself:
    [N] matches when the hire date is no match day and [N + 1] when it is. *)
Theorem single_hire_marks_hire_day_and_next (df : DataFrame) (hire second : Timestamp)
        (N : Z) :
  let dates := col_match_date df in
  let next := firstn (Z.to_nat N) (strictly_after hire dates) in
  chronological dates ->
  1 <= N <= Z.of_nat (length (strictly_after hire dates)) ->
  exists df',
    add_managerial_change_column df hire second 1 N = Ok df' /\
    get_column (columns df') "is_manager_bounce" =
      Some (map (fun d => if (d =? hire) || in_window d next then 1 else 0) dates) /\
    Z.of_nat (count_label 1
                (map (fun d => if (d =? hire) || in_window d next then 1 else 0) dates)) =
      N + (if in_window hire dates then 1 else 0).
Proof. exact (single_hire_window df hire second N). Qed.

Lemma single_hire_marks_hire_day_and_next_example :
  exists df',
    add_managerial_change_column sample_matches 20151017
      default_second_manager_hire_date 1 5 = Ok df' /\
    get_column (columns df') "is_manager_bounce" = Some [0; 1; 1; 1; 1; 1; 1; 0].
Proof.
  destruct (single_hire_marks_hire_day_and_next sample_matches 20151017
              default_second_manager_hire_date 5) as (df' & Hrun & Hcol & _).
  - unfold chronological. simpl. repeat constructor.
  - simpl. lia.
  - exists df'. split; [exact Hrun | exact Hcol].
Defined.

(** ** Positions the labeller can and cannot reach *)

Lemma iloc_Ok_iff {A : Type} (s : list A) (i : Z) :
  (exists x, iloc s i = Ok x) <-> - Z.of_nat (length s) <= i < Z.of_nat (length s).
Proof.
  unfold iloc. split.
  - intros [x Hx].
    destruct (Z.ltb_spec i (- Z.of_nat (length s))); [discriminate |].
    destruct (Z.leb_spec (Z.of_nat (length s)) i); [discriminate |]. lia.
  - intros Hi.
    replace (i <? - Z.of_nat (length s)) with false by (symmetry; apply Z.ltb_ge; lia).
    replace (Z.of_nat (length s) <=? i) with false by (symmetry; apply Z.leb_gt; lia).
    simpl.
    destruct (nth_error s _) as [x|] eqn:Hx; [now exists x |].
    apply nth_error_None in Hx. destruct (Z.ltb_spec i 0); lia.
Qed.

Lemma iloc_Ok_or_IndexError {A : Type} (s : list A) (i : Z) :
  (exists x, iloc s i = Ok x) \/ iloc s i = Raise IndexError.
Proof.
  destruct (iloc s i) as [x|e] eqn:H; [left; now exists x | right].
  now rewrite (iloc_raises _ _ _ H).
Qed.

(** X5: the labeller either returns a frame or raises [IndexError].  For one
    hired manager it returns exactly when position [N - 1] exists, from the
    front or (if negative) from the back, among the matches dated after the
    hire date; for two, when it exists among the matches dated on or after
    each hire date.  So a single hire on a match day followed by [N - 1]
    matches raises, although [N] matches are dated on or after it. *)
Theorem labeller_returns_iff_positions_exist (df : DataFrame) (hire1 hire2 : Timestamp)
        (n N : Z) :
  let dates := col_match_date df in
  let within (s : list Timestamp) :=
    - Z.of_nat (length s) <= N - 1 < Z.of_nat (length s) in
  ((exists df', add_managerial_change_column df hire1 hire2 n N = Ok df') \/
   add_managerial_change_column df hire1 hire2 n N = Raise IndexError) /\
  (n = 1 ->
   ((exists df', add_managerial_change_column df hire1 hire2 n N = Ok df') <->
    within (strictly_after hire1 dates))) /\
  (n = 2 ->
   ((exists df', add_managerial_change_column df hire1 hire2 n N = Ok df') <->
    within (on_or_after hire1 dates) /\ within (on_or_after hire2 dates))).
Proof.
  intros dates within.
  assert (H1 : n = 1 ->
            ((exists df', add_managerial_change_column df hire1 hire2 n N = Ok df') <->
             within (strictly_after hire1 dates)) /\
            ((exists df', add_managerial_change_column df hire1 hire2 n N = Ok df') \/
             add_managerial_change_column df hire1 hire2 n N = Raise IndexError)).
  { intros ->. rewrite single_hire_labels. fold dates.
    fold (strictly_after hire1 dates).
    unfold within. rewrite <- iloc_Ok_iff.
    destruct (iloc_Ok_or_IndexError (strictly_after hire1 dates) (N - 1)) as [[l Hl] | Hl];
      rewrite Hl; simpl.
    - split; [| left; eauto]. split; eauto.
    - split; [| now right]. split; intros [x Hx]; discriminate. }
  assert (H2 : n = 2 ->
            ((exists df', add_managerial_change_column df hire1 hire2 n N = Ok df') <->
             within (on_or_after hire1 dates) /\ within (on_or_after hire2 dates)) /\
            ((exists df', add_managerial_change_column df hire1 hire2 n N = Ok df') \/
             add_managerial_change_column df hire1 hire2 n N = Raise IndexError)).
  { intros ->. rewrite two_hire_labels. fold dates.
    unfold within. rewrite <- !iloc_Ok_iff.
    destruct (iloc_Ok_or_IndexError (on_or_after hire1 dates) (N - 1)) as [[l1 Hl1] | Hl1];
      rewrite Hl1; simpl.
    - destruct (iloc_Ok_or_IndexError (on_or_after hire2 dates) (N - 1))
        as [[l2 Hl2] | Hl2]; rewrite Hl2; simpl.
      + split; [| left; eauto]. split; eauto.
      + split; [| now right].
        split; [intros [x Hx]; discriminate | intros [_ [x Hx]]; discriminate].
    - split; [| now right].
      split; [intros [x Hx]; discriminate | intros [[x Hx] _]; discriminate]. }
  split; [| split; [intros Hn; now apply H1 | intros Hn; now apply H2]].
  destruct (Z.eq_dec n 1) as [Hn | Hn1]; [now apply H1 |].
  destruct (Z.eq_dec n 2) as [Hn | Hn2]; [now apply H2 |].
  left. exists df. now apply labeller_skips.
Qed.

Lemma labeller_returns_iff_positions_exist_example :
  length (on_or_after 20151031 (col_match_date sample_matches)) = 5%nat /\
  add_managerial_change_column sample_matches 20151031
    default_second_manager_hire_date 1 5 = Raise IndexError.
Proof.
  split; [reflexivity |].
  destruct (labeller_returns_iff_positions_exist sample_matches 20151031
              default_second_manager_hire_date 1 5) as ([[df' Hrun] | Hraise] & H1 & _).
  - exfalso. assert (Hex : exists df', add_managerial_change_column sample_matches
                             20151031 default_second_manager_hire_date 1 5 = Ok df')
      by (now exists df').
    apply (proj1 (H1 eq_refl)) in Hex. simpl in Hex. lia.
  - exact Hraise.
Defined.

Lemma nth_error_last {A : Type} (s : list A) (d : A) :
  s <> [] -> nth_error s (length s - 1) = Some (last s d).
Proof.
  induction s as [|x s IH]; intros Hne; [contradiction |].
  destruct s as [|y s]; [reflexivity |].
  simpl length in *. replace (S (S (length s)) - 1)%nat with (S (length s)) by lia.
  change (nth_error (x :: y :: s) (S (length s))) with (nth_error (y :: s) (length s)).
  change (last (x :: y :: s) d) with (last (y :: s) d).
  rewrite <- IH by discriminate. f_equal. lia.
Qed.

Lemma iloc_from_the_back {A : Type} (s : list A) (d : A) :
  s <> [] -> iloc s (-1) = Ok (last s d).
Proof.
  intros Hne. unfold iloc.
  assert (0 < length s)%nat by (destruct s; [contradiction | simpl; lia]).
  replace (-1 <? - Z.of_nat (length s)) with false by (symmetry; apply Z.ltb_ge; lia).
  replace (Z.of_nat (length s) <=? -1) with false by (symmetry; apply Z.leb_gt; lia).
  simpl orb. cbv iota.
  change (-1 <? 0) with true. cbv iota.
  replace (Z.to_nat (-1 + Z.of_nat (length s))) with (length s - 1)%nat by lia.
  now rewrite (nth_error_last s d Hne).
Qed.

Lemma chronological_last (dates : list Timestamp) (d : Timestamp) :
  chronological dates -> In d dates -> d <= last dates 0.
Proof.
  intros Hsorted. revert d.
  induction Hsorted as [|x dates Hsorted IH Hall]; intros d Hd; [contradiction |].
  destruct dates as [|y dates]; [destruct Hd as [-> | []]; simpl; lia |].
  change (last (x :: y :: dates) 0) with (last (y :: dates) 0).
  destruct Hd as [<- | Hd]; [| now apply IH].
  rewrite Forall_forall in Hall.
  assert (x < y) by (apply Hall; now left).
  assert (y <= last (y :: dates) 0) by (apply IH; now left). lia.
Qed.

Lemma last_passing_date (dates : list Timestamp) (p : Timestamp -> bool) :
  chronological dates -> filter p dates <> [] ->
  p (last (filter p dates) 0) = true /\
  forall d, In d dates -> p d = true -> d <= last (filter p dates) 0.
Proof.
  intros Hsorted Hne. split.
  - assert (Hin : In (last (filter p dates) 0) (filter p dates)).
    { destruct (exists_last Hne) as (pre & x & ->). rewrite last_last.
      apply in_or_app. right. now left. }
    apply filter_In in Hin. tauto.
  - intros d Hd Hp. apply chronological_last.
    + now apply chronological_filter.
    + apply filter_In. now split.
Qed.

(** X6: a bounce of zero matches does not give an empty window.  Position
    [N - 1 = -1] is the last entry, so with dated matches and at least one
    match to pick, every match dated on or after the first hire date is
    marked, for one hired manager and for two. *)
Theorem zero_match_bounce_marks_rest_of_season (df : DataFrame) (hire1 hire2 : Timestamp) :
  let dates := col_match_date df in
  let rest := set_column df "is_manager_bounce"
                (map (fun d => if hire1 <=? d then 1 else 0) dates) in
  chronological dates ->
  (strictly_after hire1 dates <> [] ->
   add_managerial_change_column df hire1 hire2 1 0 = Ok rest) /\
  (on_or_after hire1 dates <> [] -> on_or_after hire2 dates <> [] ->
   add_managerial_change_column df hire1 hire2 2 0 = Ok rest).
Proof.
  intros dates rest Hsorted. split.
  - intros Hne. rewrite single_hire_labels. fold dates.
    fold (strictly_after hire1 dates).
    change (0 - 1) with (-1). rewrite (iloc_from_the_back _ 0 Hne). simpl.
    destruct (last_passing_date dates (fun d => hire1 <? d) Hsorted Hne) as [Hl Hmax].
    fold (strictly_after hire1 dates) in Hl, Hmax.
    apply Z.ltb_lt in Hl.
    unfold rest. do 2 f_equal. apply map_ext_in. intros d Hd.
    unfold single_hire_label.
    destruct (Z.ltb_spec hire1 d) as [Hlt | Hge].
    + assert (d <= last (strictly_after hire1 dates) 0)
        by (apply Hmax; [exact Hd | now apply Z.ltb_lt]).
      decide_dates.
    + decide_dates.
  - intros Hne1 Hne2. rewrite two_hire_labels. fold dates.
    change (0 - 1) with (-1).
    rewrite (iloc_from_the_back _ 0 Hne1), (iloc_from_the_back _ 0 Hne2). simpl.
    destruct (last_passing_date dates (fun d => hire1 <=? d) Hsorted Hne1) as [Hl1 Hmax1].
    destruct (last_passing_date dates (fun d => hire2 <=? d) Hsorted Hne2) as [Hl2 Hmax2].
    fold (on_or_after hire1 dates) in Hl1, Hmax1.
    fold (on_or_after hire2 dates) in Hl2, Hmax2.
    apply Z.leb_le in Hl1, Hl2.
    unfold rest. do 2 f_equal. apply map_ext_in. intros d Hd.
    unfold two_hire_label.
    assert (H1 : hire1 <= d -> d <= last (on_or_after hire1 dates) 0)
      by (intros; apply Hmax1; [exact Hd | now apply Z.leb_le]).
    assert (H2 : hire2 <= d -> d <= last (on_or_after hire2 dates) 0)
      by (intros; apply Hmax2; [exact Hd | now apply Z.leb_le]).
    destruct (Z.le_gt_cases hire1 d) as [Ha | Ha];
      destruct (Z.le_gt_cases hire2 d) as [Hb | Hb];
      try specialize (H1 Ha); try specialize (H2 Hb); decide_dates.
Qed.

Lemma zero_match_bounce_marks_rest_of_season_example :
  exists df',
    add_managerial_change_column sample_matches 20151009
      default_second_manager_hire_date 1 0 = Ok df' /\
    get_column (columns df') "is_manager_bounce" = Some [0; 1; 1; 1; 1; 1; 1; 1].
Proof.
  destruct (zero_match_bounce_marks_rest_of_season sample_matches 20151009
              default_second_manager_hire_date) as [Hone _].
  - unfold chronological. simpl. repeat constructor.
  - eexists. split; [apply Hone; simpl; discriminate | reflexivity].
Defined.

(** ** Two hire dates in order, windows free to overlap *)

Lemma filter_length_or_and {A : Type} (p q : A -> bool) (s : list A) :
  (length (filter (fun x => p x || q x) s) + length (filter (fun x => p x && q x) s) =
   length (filter p s) + length (filter q s))%nat.
Proof.
  induction s as [|x s IH]; simpl; [reflexivity |].
  destruct (p x), (q x); simpl; lia.
Qed.

Lemma later_hire_later_end (dates : list Timestamp) (hire1 hire2 l1 l2 : Timestamp)
      (N : Z) :
  chronological dates -> hire1 <= hire2 ->
  In l1 (bounce_window N hire1 dates) ->
  bounce_window N hire1 dates = filter (fun d => (hire1 <=? d) && (d <=? l1)) dates ->
  bounce_window N hire2 dates = filter (fun d => (hire2 <=? d) && (d <=? l2)) dates ->
  length (bounce_window N hire1 dates) = length (bounce_window N hire2 dates) ->
  l1 <= l2.
Proof.
  intros Hsorted Hh Hin1 Hw1 Hw2 Hlen.
  destruct (Z.le_gt_cases l1 l2) as [Hle | Hgt]; [exact Hle | exfalso].
  assert (Hnd : NoDup (l1 :: bounce_window N hire2 dates)).
  { constructor.
    - rewrite Hw2. intros Hin. apply filter_In in Hin. destruct Hin as [_ Hin].
      apply andb_prop in Hin. destruct Hin as [_ Hin]. apply Z.leb_le in Hin. lia.
    - rewrite Hw2. apply NoDup_filter, chronological_NoDup, Hsorted. }
  assert (Hincl : incl (l1 :: bounce_window N hire2 dates) (bounce_window N hire1 dates)).
  { intros d [<- | Hd]; [exact Hin1 |].
    rewrite Hw2 in Hd. apply filter_In in Hd. destruct Hd as [Hd Hin].
    apply andb_prop in Hin. destruct Hin as [Ha Hb].
    apply Z.leb_le in Ha, Hb.
    rewrite Hw1. apply filter_In. split; [exact Hd |].
    apply andb_true_intro. split; apply Z.leb_le; lia. }
  apply (NoDup_incl_length Hnd) in Hincl. simpl in Hincl. lia.
Qed.

(** X7: with two hire dates in order, dated matches and at least [N]
    matches on or after each, the labeller marks exactly the matches that
    lie in either window, also when the windows overlap; a match in both
    windows is marked once, so the number of marked matches is [2 * N] less
    the number of matches the windows share. *)
Theorem two_hire_marks_union_of_windows (df : DataFrame) (hire1 hire2 : Timestamp) (N : Z) :
  let dates := col_match_date df in
  let window1 := bounce_window N hire1 dates in
  let window2 := bounce_window N hire2 dates in
  chronological dates ->
  1 <= N ->
  N <= Z.of_nat (length (on_or_after hire1 dates)) ->
  N <= Z.of_nat (length (on_or_after hire2 dates)) ->
  hire1 <= hire2 ->
  exists df',
    add_managerial_change_column df hire1 hire2 2 N = Ok df' /\
    get_column (columns df') "is_manager_bounce" =
      Some (map (window_label [window1; window2]) dates) /\
    Z.of_nat (count_label 1 (map (window_label [window1; window2]) dates)) =
      2 * N - Z.of_nat (length (filter (fun d => in_window d window2) window1)).
Proof.
  intros dates window1 window2 Hsorted HN Hafter1 Hafter2 Horder.
  destruct (bounce_window_interval dates hire1 N Hsorted) as (l1 & Hi1 & Hin1 & Hw1 & Hlen1);
    [lia |].
  destruct (bounce_window_interval dates hire2 N Hsorted) as (l2 & Hi2 & Hin2 & Hw2 & Hlen2);
    [lia |].
  assert (Hends : l1 <= l2)
    by (eapply later_hire_later_end; eauto; congruence).
  fold window1 in Hin1, Hw1, Hlen1. fold window2 in Hin2, Hw2, Hlen2.
  destruct (bounce_window_on_or_after _ _ _ _ Hin1) as [Hh1 _].
  destruct (bounce_window_on_or_after _ _ _ _ Hin2) as [Hh2 _].
  assert (Hlabel : forall d, In d dates ->
            window_label [window1; window2] d =
            if ((hire1 <=? d) && (d <=? l1)) || ((hire2 <=? d) && (d <=? l2))
            then 1 else 0).
  { intros d Hd. rewrite window_label_two, Hw1, Hw2.
    now rewrite !in_window_filter by exact Hd. }
  exists (set_column df "is_manager_bounce" (map (window_label [window1; window2]) dates)).
  split; [| split].
  - rewrite two_hire_labels. fold dates. rewrite Hi1, Hi2. simpl.
    do 2 f_equal. apply map_ext_in. intros d Hd.
    rewrite (Hlabel d Hd). unfold two_hire_label. decide_dates.
  - apply get_set_column_eq.
  - rewrite (map_ext_in _ _ _ Hlabel), count_label_map_indicator.
    assert (Hshared : filter (fun d => in_window d window2) window1 =
                      filter (fun d => ((hire1 <=? d) && (d <=? l1)) &&
                                       ((hire2 <=? d) && (d <=? l2))) dates).
    { rewrite Hw1 at 1. rewrite filter_filter. apply filter_ext_in.
      intros d Hd. destruct ((hire1 <=? d) && (d <=? l1)); [simpl | reflexivity].
      now rewrite Hw2, in_window_filter. }
    rewrite Hshared.
    assert (Hcount := filter_length_or_and
                        (fun d => (hire1 <=? d) && (d <=? l1))
                        (fun d => (hire2 <=? d) && (d <=? l2)) dates).
    rewrite <- Hw1, <- Hw2 in Hcount. lia.
Qed.

Lemma two_hire_marks_union_of_windows_example :
  exists df',
    add_managerial_change_column sample_matches 20151009 20151030 2 4 = Ok df' /\
    get_column (columns df') "is_manager_bounce" = Some [0; 1; 1; 1; 1; 1; 1; 0].
Proof.
  destruct (two_hire_marks_union_of_windows sample_matches 20151009 20151030 4)
    as (df' & Hrun & Hcol & _).
  - unfold chronological. simpl. repeat constructor.
  - lia.
  - simpl. lia.
  - simpl. lia.
  - lia.
  - exists df'. split; [exact Hrun | exact Hcol].
Defined.

(** ** Running a column function again *)

Lemma has_column_false_map (cols : list (string * list Z)) (name : string)
      (values : list Z) :
  has_column cols name = false ->
  map (fun cv => if String.eqb (fst cv) name then (fst cv, values) else cv) cols = cols.
Proof.
  induction cols as [|[c v] cols IH]; simpl; [reflexivity |].
  destruct (String.eqb c name); simpl; [discriminate |].
  intros H. now rewrite IH.
Qed.

Lemma has_column_set (df : DataFrame) (name : string) (values : list Z) :
  has_column (columns (set_column df name values)) name = true.
Proof.
  unfold set_column; simpl.
  destruct (has_column (columns df) name) eqn:Hhas.
  - unfold has_column in *. rewrite existsb_exists in *.
    destruct Hhas as ([c v] & Hin & Hc). simpl in Hc.
    exists (c, values). split; [| exact Hc].
    apply in_map_iff. exists (c, v). simpl. now rewrite Hc.
  - unfold has_column. rewrite existsb_app. simpl.
    now rewrite String.eqb_refl, orb_true_r.
Qed.

Lemma set_column_overwrite (df : DataFrame) (name : string) (old new : list Z) :
  set_column (set_column df name old) name new = set_column df name new.
Proof.
  unfold set_column at 1. rewrite has_column_set.
  unfold set_column; simpl.
  destruct (has_column (columns df) name) eqn:Hhas; f_equal.
  - rewrite map_map. apply map_ext. intros [c v]; simpl.
    destruct (String.eqb c name) eqn:Hc; simpl; now rewrite Hc.
  - rewrite map_app. simpl. rewrite String.eqb_refl.
    now rewrite (has_column_false_map _ _ _ Hhas).
Qed.

(** X8: labelling a frame that the labeller has returned, with the same
    arguments, returns that frame again: the column is overwritten where it
    stands with the same labels, and no second column appears. *)
Theorem labelling_twice_changes_nothing (df df' : DataFrame) (hire1 hire2 : Timestamp)
        (n N : Z) :
  add_managerial_change_column df hire1 hire2 n N = Ok df' ->
  add_managerial_change_column df' hire1 hire2 n N = Ok df'.
Proof.
  intros Hrun.
  assert (Hdates : col_match_date df' = col_match_date df).
  { destruct (add_managerial_change_shape _ _ _ _ _ _ Hrun)
      as [[_ (labels & _ & ->)] | (_ & _ & ->)]; reflexivity. }
  destruct (Z.eq_dec n 1) as [-> | H1]; [| destruct (Z.eq_dec n 2) as [-> | H2]].
  - rewrite single_hire_labels in Hrun. rewrite single_hire_labels, Hdates.
    destruct (iloc _ _) as [l|e]; simpl in *; [| discriminate].
    injection Hrun as <-. now rewrite set_column_overwrite.
  - rewrite two_hire_labels in Hrun. rewrite two_hire_labels, Hdates.
    destruct (iloc _ _) as [l1|e]; simpl in *; [| discriminate].
    destruct (iloc _ _) as [l2|e]; simpl in *; [| discriminate].
    injection Hrun as <-. now rewrite set_column_overwrite.
  - rewrite labeller_skips in Hrun by assumption. injection Hrun as <-.
    now apply labeller_skips.
Qed.

Lemma labelling_twice_changes_nothing_example :
  exists df',
    add_managerial_change_column sample_matches 20151009 20151123 2 3 = Ok df' /\
    add_managerial_change_column df' 20151009 20151123 2 3 = Ok df'.
Proof.
  eexists. split; [reflexivity |].
  apply (labelling_twice_changes_nothing sample_matches _ 20151009 20151123 2 3).
  reflexivity.
Defined.

Lemma unnamed_columns_untouched (g : string * list Z -> string * list Z)
      (cols : list (string * list Z)) (name : string) :
  has_column cols name = false ->
  map (fun cv => if String.eqb (fst cv) name then g cv else cv) cols = cols.
Proof.
  induction cols as [|[c v] cols IH]; simpl; [reflexivity |].
  destruct (String.eqb c name); simpl; [discriminate |].
  intros H. now rewrite IH.
Qed.

Lemma loc_set_set_column (df : DataFrame) (label : Z) (name : string) (v : Z)
      (col : list Z) :
  loc_set (set_column df name col) label name v =
  set_column df name (map2 (fun r old => if fst r =? label then v else old) (rows df) col).
Proof.
  unfold loc_set, set_column; simpl.
  destruct (has_column (columns df) name) eqn:Hhas; f_equal.
  - rewrite map_map. apply map_ext. intros [c w]; simpl.
    destruct (String.eqb c name) eqn:Hc; simpl; now rewrite Hc.
  - rewrite map_app. simpl. rewrite String.eqb_refl. f_equal.
    exact (unnamed_columns_untouched _ _ _ Hhas).
Qed.

Lemma points_loop_set_column (team_name : string) (df : DataFrame)
      (todo : list (Z * Match)) (col : list Z) :
  fold_left (points_step team_name) todo (set_column df "points_from_match" col) =
  set_column df "points_from_match"
    (fold_left (points_column_step team_name (rows df)) todo col).
Proof.
  revert col. induction todo as [|q todo IH]; intros col; simpl; [reflexivity |].
  rewrite <- IH. f_equal.
  rewrite points_step_written. unfold points_column_step.
  destruct (points_written team_name (snd q)); [| reflexivity].
  apply loc_set_set_column.
Qed.

(** The whole effect of the points function is one column assignment. *)
Lemma add_points_is_assignment (df : DataFrame) (team_name : string) :
  add_points_from_match_column df team_name =
  set_column df "points_from_match" (points_column team_name (rows df)).
Proof.
  unfold add_points_from_match_column.
  exact (points_loop_set_column team_name df (rows df) (repeat 0 (len df))).
Qed.

(** X9: computing the points for a team on a frame that already holds the
    points of another run overwrites them: the result is the same frame as
    computing the points for that team on the original frame, so a second
    run for the same team changes nothing and no trace of an earlier team
    is left. *)
Theorem points_are_recomputed_from_scratch (df : DataFrame) (earlier team_name : string) :
  add_points_from_match_column (add_points_from_match_column df earlier) team_name =
  add_points_from_match_column df team_name /\
  add_points_from_match_column (add_points_from_match_column df team_name) team_name =
  add_points_from_match_column df team_name.
Proof.
  assert (H : forall t1 t2,
             add_points_from_match_column (add_points_from_match_column df t1) t2 =
             add_points_from_match_column df t2).
  { intros t1 t2. rewrite (add_points_is_assignment df t1).
    rewrite (add_points_is_assignment (set_column df _ _) t2).
    rewrite set_column_overwrite, (add_points_is_assignment df t2). reflexivity. }
  split; apply H.
Qed.

(** X10: the two column functions can run in either order.  If the labeller
    returns on a frame, it returns on the frame with points too, and the
    two results have the same rows and the same column under every name. *)
Theorem labels_and_points_in_either_order (df labelled_df : DataFrame)
        (team_name : string) (hire1 hire2 : Timestamp) (n N : Z) :
  add_managerial_change_column df hire1 hire2 n N = Ok labelled_df ->
  exists df',
    add_managerial_change_column (add_points_from_match_column df team_name)
      hire1 hire2 n N = Ok df' /\
    rows df' = rows (add_points_from_match_column labelled_df team_name) /\
    forall name,
      get_column (columns df') name =
      get_column (columns (add_points_from_match_column labelled_df team_name)) name.
Proof.
  intros Hrun.
  rewrite (add_points_is_assignment labelled_df), (add_points_is_assignment df).
  set (points := points_column team_name (rows df)).
  assert (Hrows : rows labelled_df = rows df).
  { destruct (add_managerial_change_shape _ _ _ _ _ _ Hrun)
      as [[_ (labels & _ & ->)] | (_ & _ & ->)]; reflexivity. }
  rewrite Hrows. fold points.
  assert (Hagain : agree_result
            (add_managerial_change_column (set_column df "points_from_match" points)
               hire1 hire2 n N)
            (add_managerial_change_column df hire1 hire2 n N)).
  { apply agree_labeller. split; [reflexivity |].
    apply get_set_column_ne. discriminate. }
  rewrite Hrun in Hagain.
  destruct (add_managerial_change_column (set_column df _ _) _ _ _ _) as [df'|e] eqn:Hrun';
    simpl in Hagain; [| contradiction].
  exists df'. split; [reflexivity |].
  destruct Hagain as [Hrows' Hlabels]. split; [now rewrite Hrows', Hrows |].
  intros name.
  destruct (String.eqb_spec name "is_manager_bounce") as [-> | Hb].
  - rewrite Hlabels. symmetry. apply get_set_column_ne. discriminate.
  - destruct (add_managerial_change_shape _ _ _ _ _ _ Hrun')
      as [[_ (l1 & _ & ->)] | (_ & _ & ->)];
      destruct (add_managerial_change_shape _ _ _ _ _ _ Hrun)
        as [[_ (l2 & _ & ->)] | (_ & _ & ->)];
      destruct (String.eqb_spec name "points_from_match") as [-> | Hp];
      repeat first [rewrite get_set_column_eq | rewrite get_set_column_ne by assumption];
      reflexivity.
Qed.

Lemma labels_and_points_in_either_order_example :
  exists df',
    add_managerial_change_column (add_points_from_match_column sample_matches "Sunderland")
      20151009 default_second_manager_hire_date 1 5 = Ok df' /\
    get_column (columns df') "points_from_match" = Some [1; 0; 3; 0; 0; 3; 3; 0] /\
    get_column (columns df') "is_manager_bounce" = Some [0; 1; 1; 1; 1; 1; 0; 0].
Proof.
  destruct (labels_and_points_in_either_order sample_matches _ "Sunderland" 20151009
              default_second_manager_hire_date 1 5 eq_refl) as (df' & Hrun & _ & Hcols).
  exists df'. split; [exact Hrun |].
  split; rewrite Hcols; reflexivity.
Defined.

(** ** The points loop on rows that share a label *)

Lemma points_column_last_write (team_name : string) (rs : list (Z * Match)) :
  points_column team_name rs = map (fun r => last_write team_name rs (fst r)) rs.
Proof.
  unfold points_column.
  assert (Hfold : forall todo done,
            fold_left (points_column_step team_name rs) todo
              (map (fun r => last_write team_name done (fst r)) rs) =
            map (fun r => last_write team_name (done ++ todo) (fst r)) rs).
  { induction todo as [|q todo IH]; intros done; simpl.
    - now rewrite app_nil_r.
    - replace (done ++ q :: todo) with ((done ++ [q]) ++ todo)
        by (rewrite <- app_assoc; reflexivity).
      rewrite <- IH. f_equal.
      unfold points_column_step, last_write.
      destruct (points_written team_name (snd q)) as [v|] eqn:Hv.
      + rewrite map2_with_map. apply map_ext. intros r.
        rewrite fold_left_app. simpl. rewrite Hv.
        now rewrite (Z.eqb_sym (fst q) (fst r)).
      + apply map_ext. intros r. rewrite fold_left_app. simpl. rewrite Hv.
        now destruct (fst q =? fst r). }
  rewrite <- (map_const 0 rs).
  exact (Hfold rs []).
Qed.

Lemma points_written_plays (team_name : string) (r : Z * Match) :
  points_written team_name (snd r) = None <-> plays team_name r = false.
Proof.
  unfold points_written, plays.
  destruct (String.eqb (home_team (snd r)) team_name); simpl;
    [split; discriminate |].
  destruct (String.eqb (away_team (snd r)) team_name); simpl;
    split; try discriminate; reflexivity.
Qed.

(** X11: on any frame, the points written for a match of the team reach
    every row that carries the same index label, and the last such match in
    frame order decides: all rows with that label end with its points,
    whatever their own teams and scores. *)
Theorem last_match_with_a_label_decides (df : DataFrame) (team_name : string)
        (before after : list (Z * Match)) (q : Z * Match) :
  rows df = before ++ q :: after ->
  plays team_name q = true ->
  Forall (fun r => fst r = fst q -> plays team_name r = false) after ->
  exists points,
    get_column (columns (add_points_from_match_column df team_name))
               "points_from_match" = Some points /\
    Forall2 (fun r p => fst r = fst q -> p = points_of_row team_name (snd q))
            (rows df) points.
Proof.
  intros Hrows Hq Hafter.
  exists (points_column team_name (rows df)).
  split; [apply add_points_column |].
  rewrite points_column_last_write. apply Forall2_map_right.
  intros r Hr. rewrite Hr, Hrows. unfold last_write.
  rewrite fold_left_app. simpl. rewrite Z.eqb_refl.
  destruct (points_written team_name (snd q)) as [v|] eqn:Hv;
    [| apply points_written_plays in Hv; congruence].
  unfold points_of_row. rewrite Hv.
  clear Hrows. induction Hafter as [|x after Hx _ IH]; simpl; [reflexivity |].
  destruct (Z.eqb_spec (fst x) (fst q)) as [Heq | Hne]; [| exact IH].
  apply Hx, points_written_plays in Heq. rewrite Heq. exact IH.
Qed.

Lemma last_match_with_a_label_decides_example :
  exists points,
    get_column (columns (add_points_from_match_column sample_shared_label "Sunderland"))
               "points_from_match" = Some points /\
    Forall2 (fun r p => fst r = 0 -> p = 3) (rows sample_shared_label) points.
Proof.
  apply (last_match_with_a_label_decides sample_shared_label "Sunderland" []
           [sample_row 0 20150912 "Swansea City" "Aston Villa" 2 2]
           (sample_row 0 20150912 "Sunderland" "Liverpool" 1 0)).
  - reflexivity.
  - reflexivity.
  - repeat constructor.
Defined.

(** X12: on a frame whose rows have labels of their own, the two sides of a
    match never both win: computed for the home team and for the away team,
    the points of the match are 1 and 1 when the scores are equal, and 3 for
    the side with the greater score and 0 for the other when they differ. *)
Theorem home_and_away_points_share_the_match (df : DataFrame) (i : nat) (r : Z * Match) :
  NoDup (index df) ->
  nth_error (rows df) i = Some r ->
  home_team (snd r) <> away_team (snd r) ->
  exists home_points away_points ph pa,
    get_column (columns (add_points_from_match_column df (home_team (snd r))))
               "points_from_match" = Some home_points /\
    get_column (columns (add_points_from_match_column df (away_team (snd r))))
               "points_from_match" = Some away_points /\
    nth_error home_points i = Some ph /\
    nth_error away_points i = Some pa /\
    ((home_score (snd r) = away_score (snd r) /\ ph = 1 /\ pa = 1) \/
     (home_score (snd r) > away_score (snd r) /\ ph = 3 /\ pa = 0) \/
     (home_score (snd r) < away_score (snd r) /\ ph = 0 /\ pa = 3)).
Proof.
  intros Hnd Hr Hteams.
  exists (map (fun x => points_of_row (home_team (snd r)) (snd x)) (rows df)),
         (map (fun x => points_of_row (away_team (snd r)) (snd x)) (rows df)),
         (points_of_row (home_team (snd r)) (snd r)),
         (points_of_row (away_team (snd r)) (snd r)).
  split; [now rewrite add_points_column, points_column_unique_labels |].
  split; [now rewrite add_points_column, points_column_unique_labels |].
  split; [now rewrite nth_error_map, Hr |].
  split; [now rewrite nth_error_map, Hr |].
  unfold points_of_row, points_written.
  rewrite String.eqb_refl.
  replace (String.eqb (home_team (snd r)) (away_team (snd r))) with false
    by (symmetry; now apply String.eqb_neq).
  rewrite String.eqb_refl.
  destruct (Z.gtb_spec (home_score (snd r)) (away_score (snd r)));
    destruct (Z.gtb_spec (away_score (snd r)) (home_score (snd r)));
    destruct (Z.eqb_spec (home_score (snd r)) (away_score (snd r))); lia.
Qed.

Lemma home_and_away_points_share_the_match_example :
  exists home_points away_points,
    get_column (columns (add_points_from_match_column sample_matches "Everton"))
               "points_from_match" = Some home_points /\
    get_column (columns (add_points_from_match_column sample_matches "Sunderland"))
               "points_from_match" = Some away_points /\
    nth_error home_points 3 = Some 3 /\
    nth_error away_points 3 = Some 0.
Proof.
  destruct (home_and_away_points_share_the_match sample_matches 3
              (sample_row 95 20151031 "Everton" "Sunderland" 6 2))
    as (hp & ap & ph & pa & Hh & Ha & Hph & Hpa & Hcases).
  - unfold index. simpl. distinct_labels.
  - reflexivity.
  - discriminate.
  - exists hp, ap. split; [exact Hh | split; [exact Ha |]].
    simpl in Hcases.
    destruct Hcases as [(H & _) | [(_ & -> & ->) | (H & _)]]; try lia.
    split; assumption.
Defined.

(** ** The plots *)

Lemma extracted_column (sb : StatsBomb) (league season team_name name : string)
      (c : Competition) :
  find (is_league_season league season) (competitions sb) = Some c ->
  get_column (columns (matches sb (competition_id c) (season_id c))) name = None ->
  exists df,
    extract_teams_matches_during_season sb league season team_name = Ok df /\
    get_column (columns df) name = None.
Proof.
  intros Hfind Hnone. unfold extract_teams_matches_during_season.
  rewrite load_by_first_match, Hfind. cbn [bind].
  eexists. split; [reflexivity |].
  unfold sort_values_by_match_date, df_boolean_index. cbn [columns].
  rewrite !get_column_map_values.
  rewrite (get_column_map_values (fun v => boolean_index v _)).
  rewrite get_column_map_values, Hnone. reflexivity.
Qed.

(** X13: with a number of hired managers other than 1 and 2, on fetched data
    that has no [is_manager_bounce] column, the pipeline returns a frame
    with points and without bounce labels, and the team plot, which reads
    the labels, raises [KeyError] for that column: no chart is drawn. *)
Theorem plot_without_labels_raises_KeyError (sb : StatsBomb) (team_name : string)
        (hire1 hire2 : Timestamp) (n N : Z) (c : Competition) :
  find (is_league_season "Premier League" "2015/2016") (competitions sb) = Some c ->
  get_column (columns (matches sb (competition_id c) (season_id c))) "is_manager_bounce"
    = None ->
  n <> 1 -> n <> 2 ->
  (exists df,
     add_manager_change_and_points_won_columns_to_df sb team_name hire1 hire2 n N = Ok df /\
     get_column (columns df) "is_manager_bounce" = None /\
     exists points, get_column (columns df) "points_from_match" = Some points) /\
  (forall ttest_ind,
     plot_teams_points_per_game_diff ttest_ind sb team_name hire1 hire2 n N =
       Raise (KeyError "is_manager_bounce")).
Proof.
  intros Hfind Hnone H1 H2.
  destruct (extracted_column sb "Premier League" "2015/2016" team_name
              "is_manager_bounce" c Hfind Hnone) as (d & Hextract & Hcol).
  assert (Hrun : add_manager_change_and_points_won_columns_to_df sb team_name
                   hire1 hire2 n N = Ok (add_points_from_match_column d team_name)).
  { unfold add_manager_change_and_points_won_columns_to_df.
    rewrite Hextract. cbn [bind]. now rewrite labeller_skips by assumption. }
  assert (Hlabels : get_column (columns (add_points_from_match_column d team_name))
                      "is_manager_bounce" = None).
  { destruct (add_points_frame d team_name) as (_ & Hother & _).
    rewrite Hother by discriminate. exact Hcol. }
  split.
  - eexists. split; [exact Hrun | split; [exact Hlabels |]].
    eexists. apply add_points_column.
  - intros ttest_ind.
    unfold plot_teams_points_per_game_diff, bounce_and_non_bounce_points.
    rewrite Hrun. cbn [bind]. unfold points_where, getitem. now rewrite Hlabels.
Qed.

Lemma plot_without_labels_raises_KeyError_example :
  plot_teams_points_per_game_diff sample_ttest_ind (sample_provider sample_season)
    "Sunderland" 20151009 20151123 3 5 = Raise (KeyError "is_manager_bounce").
Proof.
  apply (plot_without_labels_raises_KeyError (sample_provider sample_season) "Sunderland"
           20151009 20151123 3 5 (mkCompetition 2 27 "Premier League" "2015/2016"));
    [reflexivity | reflexivity | lia | lia].
Defined.

Lemma run_labelled_in_range (sb : StatsBomb) (team_name : string) (hire1 hire2 : Timestamp)
      (n N : Z) (df : DataFrame) :
  n = 1 \/ n = 2 ->
  add_manager_change_and_points_won_columns_to_df sb team_name hire1 hire2 n N = Ok df ->
  exists labels points, labelled_in_range df labels points.
Proof.
  intros Hn Hrun. unfold add_manager_change_and_points_won_columns_to_df in Hrun.
  destruct (extract_teams_matches_during_season sb _ _ _) as [d|e];
    simpl in Hrun; [| discriminate].
  destruct (add_managerial_change_column d hire1 hire2 n N) as [d'|e] eqn:Hlabel;
    simpl in Hrun; [| discriminate].
  injection Hrun as <-.
  destruct (labeller_writes _ _ _ _ _ _ Hn Hlabel) as (label & -> & Hrange).
  destruct (add_points_frame (set_column d "is_manager_bounce"
                                (map label (col_match_date d))) team_name)
    as (Hrows & Hother & _).
  exists (map label (col_match_date d)), (points_column team_name (rows d)).
  unfold labelled_in_range, labelled, len. rewrite Hrows. repeat split.
  - rewrite Hother by discriminate. apply get_set_column_eq.
  - exact (add_points_column (set_column d "is_manager_bounce" _) team_name).
  - rewrite length_map. exact (len_match_date d).
  - apply points_column_length.
  - apply Forall_map, Forall_forall. intros x _. apply Hrange.
  - apply points_column_range.
Qed.

Lemma binary_labels_split (labels : list Z) :
  Forall (fun b => b = 0 \/ b = 1) labels ->
  (count_label 1 labels + count_label 0 labels = length labels)%nat.
Proof.
  unfold count_label. induction 1 as [|b labels Hb _ IH]; simpl; [reflexivity |].
  destruct Hb as [-> | ->]; simpl; lia.
Qed.

Lemma points_of_group_range (P : Z -> Prop) (label : Z) (labels points : list Z) :
  Forall P points -> Forall P (points_of_group label labels points).
Proof.
  intros Hall. revert labels.
  induction Hall as [|p points Hp _ IH]; intros [|b labels]; simpl; try constructor.
  destruct (Z.eq_dec b label); [constructor; [exact Hp | apply IH] | apply IH].
Qed.

Lemma sum_range (values : list Z) :
  Forall (fun p => p = 0 \/ p = 1 \/ p = 3) values ->
  0 <= sum values <= 3 * Z.of_nat (length values).
Proof.
  induction 1 as [|v values Hv _ IH]; simpl sum; simpl length; lia.
Qed.

Lemma np_mean_range (values : list Z) (q : Q) :
  Forall (fun p => p = 0 \/ p = 1 \/ p = 3) values ->
  np_mean values = Some q -> (0 <= q <= 3)%Q.
Proof.
  intros Hrange Hmean. destruct values as [|v values]; [discriminate |].
  apply sum_range in Hrange.
  assert (Hp : Z.pos (Pos.of_nat (length (v :: values))) =
               Z.of_nat (length (v :: values))) by (simpl length; lia).
  unfold np_mean in Hmean.
  set (p := Pos.of_nat (length (v :: values))) in *.
  set (total := sum (v :: values)) in *.
  injection Hmean as <-.
  unfold Qle. cbn [Qnum Qden]. lia.
Qed.

Lemma np_mean_None (values : list Z) : np_mean values = None <-> values = [].
Proof. destruct values; simpl; split; congruence. Qed.

Lemma choose_colors_nan (a b : option Q) :
  a = None \/ b = None -> choose_colors a b = Raise (UnboundLocalError "color_list").
Proof.
  intros H. unfold choose_colors, float_gt, float_lt, float_eq.
  destruct a, b; try reflexivity. destruct H; discriminate.
Qed.

(** Between two numbers one of the three colour branches is always taken:
    green goes to the higher bar, and both bars are yellow when they are
    equal. *)
Lemma choose_colors_numbers (x y : Q) :
  exists colors,
    choose_colors (Some x) (Some y) = Ok colors /\
    ((y < x)%Q /\ colors = (green, red) \/
     (x < y)%Q /\ colors = (red, green) \/
     (x == y)%Q /\ colors = (yellow, yellow)).
Proof.
  unfold choose_colors, float_gt, float_lt, float_eq.
  rewrite <- (Qcompare_antisym x y).
  destruct (Qcompare x y) eqn:Hxy; simpl.
  - exists (yellow, yellow). split; [reflexivity |].
    right. right. split; [now apply Qeq_alt | reflexivity].
  - exists (red, green). split; [reflexivity |].
    right. left. split; [now apply Qlt_alt | reflexivity].
  - exists (green, red). split; [reflexivity |].
    left. split; [now apply Qgt_alt | reflexivity].
Qed.

(** X14: when the pipeline returns for one or two hired managers, the team
    plot has two outcomes.  If no match carries one of the two labels, the
    mean of that group is nan, no colour branch is taken and the plot raises
    [UnboundLocalError] for [color_list].  Otherwise it draws a chart in
    which every match of the returned frame is counted in exactly one of the
    two bars, each bar height is the mean of the points of its group and
    lies between 0 and 3, the higher bar is green and the lower red (both
    yellow when equal), and the title says "statistically larger" exactly
    when the p-value is below 0.05. *)
Theorem team_chart_counts_every_match_once (ttest_ind : list Z -> list Z -> option Q)
        (sb : StatsBomb) (team_name : string)
        (hire1 hire2 : Timestamp) (n N : Z) (df : DataFrame) :
  n = 1 \/ n = 2 ->
  add_manager_change_and_points_won_columns_to_df sb team_name hire1 hire2 n N = Ok df ->
  exists labels points,
    labelled df labels points /\
    ((count_label 1 labels = 0 \/ count_label 0 labels = 0)%nat ->
     plot_teams_points_per_game_diff ttest_ind sb team_name hire1 hire2 n N =
       Raise (UnboundLocalError "color_list")) /\
    ((count_label 1 labels <> 0 /\ count_label 0 labels <> 0)%nat ->
     exists chart qb qn,
       plot_teams_points_per_game_diff ttest_ind sb team_name hire1 hire2 n N = Ok chart /\
       n_matches chart = (count_label 1 labels, count_label 0 labels) /\
       (fst (n_matches chart) + snd (n_matches chart) = len df)%nat /\
       bar_heights chart = (Some qb, Some qn) /\
       is_mean (points_of_group 1 labels points) (Some qb) /\
       is_mean (points_of_group 0 labels points) (Some qn) /\
       (0 <= qb <= 3)%Q /\ (0 <= qn <= 3)%Q /\
       ((qn < qb)%Q /\ color_list chart = (green, red) \/
        (qb < qn)%Q /\ color_list chart = (red, green) \/
        (qb == qn)%Q /\ color_list chart = (yellow, yellow)) /\
       hypothesis_title chart =
         float_lt (ttest_ind (points_of_group 1 labels points)
                             (points_of_group 0 labels points))
                  (Some alpha)).
Proof.
  intros Hn Hrun.
  destruct (run_labelled_in_range _ _ _ _ _ _ _ Hn Hrun)
    as (labels & points & Hlabelled & Hbinary & Hrange).
  exists labels, points.
  assert (Hlen : length labels = length points)
    by (destruct Hlabelled as (_ & _ & H1 & H2); congruence).
  set (bounce := points_of_group 1 labels points).
  set (others := points_of_group 0 labels points).
  assert (Hb : length bounce = count_label 1 labels)
    by (apply points_of_group_length; exact Hlen).
  assert (Ho : length others = count_label 0 labels)
    by (apply points_of_group_length; exact Hlen).
  assert (Hplot : plot_teams_points_per_game_diff ttest_ind sb team_name hire1 hire2 n N =
            (colors <- choose_colors (np_mean bounce) (np_mean others) ;;
             Ok {| bar_heights := (np_mean bounce, np_mean others);
                   n_matches := (length bounce, length others);
                   color_list := colors;
                   hypothesis_title :=
                     if float_lt (ttest_ind bounce others) (Some alpha)
                     then true else false |})).
  { unfold plot_teams_points_per_game_diff, bounce_and_non_bounce_points.
    rewrite Hrun. cbn [bind].
    rewrite !(points_where_labelled df labels points) by exact Hlabelled.
    reflexivity. }
  split; [exact Hlabelled | split].
  - intros Hempty. rewrite Hplot, choose_colors_nan; [reflexivity |].
    destruct Hempty as [H0 | H0]; [left | right]; apply np_mean_None;
      apply length_zero_iff_nil; congruence.
  - intros [H1 H0].
    destruct (np_mean bounce) as [qb|] eqn:Hqb;
      [| apply np_mean_None in Hqb; rewrite Hqb in Hb; simpl in Hb; congruence].
    destruct (np_mean others) as [qn|] eqn:Hqn;
      [| apply np_mean_None in Hqn; rewrite Hqn in Ho; simpl in Ho; congruence].
    destruct (choose_colors_numbers qb qn) as (colors & Hcolors & Horder).
    rewrite Hcolors in Hplot. cbn [bind] in Hplot.
    eexists. exists qb, qn. split; [exact Hplot |].
    cbn [n_matches bar_heights color_list hypothesis_title fst snd].
    rewrite Hb, Ho.
    split; [reflexivity |].
    split.
    { rewrite binary_labels_split by exact Hbinary.
      now destruct Hlabelled as (_ & _ & Hl & _). }
    split; [reflexivity |].
    split; [rewrite <- Hqb; apply np_mean_is_mean |].
    split; [rewrite <- Hqn; apply np_mean_is_mean |].
    split; [eapply np_mean_range; [| exact Hqb]; now apply points_of_group_range |].
    split; [eapply np_mean_range; [| exact Hqn]; now apply points_of_group_range |].
    split; [exact Horder |].
    now destruct (float_lt _ _).
Qed.

Lemma team_chart_counts_every_match_once_example :
  (exists chart,
     plot_teams_points_per_game_diff sample_ttest_ind (sample_provider sample_season)
       "Sunderland" 20151009 default_second_manager_hire_date 1 5 = Ok chart /\
     n_matches chart = (5%nat, 3%nat)) /\
  plot_teams_points_per_game_diff sample_ttest_ind (sample_provider sample_season)
    "Sunderland" 20151001 default_second_manager_hire_date 1 8 =
    Raise (UnboundLocalError "color_list").
Proof.
  split.
  - destruct (team_chart_counts_every_match_once sample_ttest_ind
                (sample_provider sample_season)
                "Sunderland" 20151009 default_second_manager_hire_date 1 5 _
                (or_introl eq_refl) eq_refl)
      as (labels & points & (Hl & _) & _ & Hchart).
    vm_compute in Hl. injection Hl as <-.
    destruct Hchart as (chart & qb & qn & Hplot & Hn & _); [split; discriminate |].
    exists chart. split; [exact Hplot | exact Hn].
  - destruct (team_chart_counts_every_match_once sample_ttest_ind
                (sample_provider sample_season)
                "Sunderland" 20151001 default_second_manager_hire_date 1 8 _
                (or_introl eq_refl) eq_refl)
      as (labels & points & (Hl & _) & Hraise & _).
    vm_compute in Hl. injection Hl as <-.
    apply Hraise. right. reflexivity.
Defined.

(** ** One cell per row *)

Lemma gather_length_eq {A B : Type} (pos : list nat) (l : list A) (m : list B) :
  length l = length m -> length (gather pos l) = length (gather pos m).
Proof.
  intros Hlen. unfold gather.
  induction pos as [|p pos IH]; simpl; [reflexivity |].
  rewrite !length_app, IH. f_equal.
  destruct (nth_error l p) eqn:Hl, (nth_error m p) eqn:Hm; try reflexivity.
  - apply nth_error_None in Hm. assert (nth_error l p <> None) by congruence.
    apply nth_error_Some in H. lia.
  - apply nth_error_None in Hl. assert (nth_error m p <> None) by congruence.
    apply nth_error_Some in H. lia.
Qed.

Lemma boolean_index_length_eq {A B : Type} (mask : list bool) (l : list A) (m : list B) :
  length l = length m ->
  length (boolean_index l mask) = length (boolean_index m mask).
Proof.
  revert l m. induction mask as [|b mask IH]; intros [|x l] [|y m] Hlen;
    simpl in *; try discriminate; try reflexivity.
  injection Hlen as Hlen. destruct b; simpl; now rewrite (IH l m Hlen).
Qed.

Lemma well_formed_sort_values (df : DataFrame) :
  well_formed df -> well_formed (sort_values_by_match_date df).
Proof.
  unfold well_formed, sort_values_by_match_date, len. cbn [rows columns].
  intros Hwf. apply Forall_map. cbn [snd].
  eapply Forall_impl; [| exact Hwf].
  intros cv Hcv. now apply gather_length_eq.
Qed.

Lemma well_formed_boolean_index (df : DataFrame) (mask : list bool) :
  well_formed df -> well_formed (df_boolean_index df mask).
Proof.
  unfold well_formed, df_boolean_index, len. cbn [rows columns].
  intros Hwf. apply Forall_map. cbn [snd].
  eapply Forall_impl; [| exact Hwf].
  intros cv Hcv. now apply boolean_index_length_eq.
Qed.

Lemma well_formed_set_column (df : DataFrame) (name : string) (values : list Z) :
  well_formed df -> length values = len df -> well_formed (set_column df name values).
Proof.
  unfold well_formed, set_column, len. cbn [rows columns].
  intros Hwf Hlen. destruct (has_column (columns df) name).
  - apply Forall_map. eapply Forall_impl; [| exact Hwf].
    intros cv Hcv. now destruct (String.eqb (fst cv) name).
  - apply Forall_app. split; [exact Hwf | now repeat constructor].
Qed.

(** X15: every step keeps one cell per row in every column.  If each column
    of the fetched frame is as long as the frame, so is each column of what
    the extractor returns, of what the labeller returns on it, and of the
    frame with points: filtering and sorting move the cells with their rows
    and the two new columns are as long as the frame. *)
Theorem columns_stay_as_long_as_the_frame (sb : StatsBomb) (team_name : string)
        (hire1 hire2 : Timestamp) (n N : Z) :
  (forall comp_id seas_id, well_formed (matches sb comp_id seas_id)) ->
  (forall league season df,
     extract_teams_matches_during_season sb league season team_name = Ok df ->
     well_formed df) /\
  (forall df df', well_formed df ->
     add_managerial_change_column df hire1 hire2 n N = Ok df' -> well_formed df') /\
  (forall df, well_formed df -> well_formed (add_points_from_match_column df team_name)) /\
  (forall df,
     add_manager_change_and_points_won_columns_to_df sb team_name hire1 hire2 n N = Ok df ->
     well_formed df).
Proof.
  intros Hfetched.
  assert (Hextract : forall league season df,
            extract_teams_matches_during_season sb league season team_name = Ok df ->
            well_formed df).
  { intros league season df Hrun. unfold extract_teams_matches_during_season in Hrun.
    rewrite load_by_first_match in Hrun.
    destruct (find _ _) as [c|]; cbn [bind] in Hrun; [| discriminate].
    injection Hrun as <-.
    apply well_formed_sort_values, well_formed_boolean_index, well_formed_sort_values.
    apply Hfetched. }
  assert (Hlabel : forall df df', well_formed df ->
            add_managerial_change_column df hire1 hire2 n N = Ok df' -> well_formed df').
  { intros df df' Hwf Hrun.
    destruct (add_managerial_change_shape _ _ _ _ _ _ Hrun)
      as [[_ (labels & Hlen & ->)] | (_ & _ & ->)]; [| exact Hwf].
    now apply well_formed_set_column. }
  assert (Hpoints : forall df, well_formed df ->
            well_formed (add_points_from_match_column df team_name)).
  { intros df Hwf. rewrite add_points_is_assignment.
    apply well_formed_set_column; [exact Hwf | apply points_column_length]. }
  repeat split; try assumption.
  intros df Hrun. unfold add_manager_change_and_points_won_columns_to_df in Hrun.
  destruct (extract_teams_matches_during_season sb _ _ _) as [d|e] eqn:Hd;
    cbn [bind] in Hrun; [| discriminate].
  destruct (add_managerial_change_column d _ _ _ _) as [d'|e] eqn:Hd';
    cbn [bind] in Hrun; [| discriminate].
  injection Hrun as <-. eauto.
Qed.

Lemma columns_stay_as_long_as_the_frame_example :
  exists df,
    add_manager_change_and_points_won_columns_to_df
      (sample_provider sample_season_with_attendance) "Sunderland" 20151009
      default_second_manager_hire_date 1 5 = Ok df /\
    well_formed df.
Proof.
  destruct (columns_stay_as_long_as_the_frame
              (sample_provider sample_season_with_attendance) "Sunderland" 20151009
              default_second_manager_hire_date 1 5) as (_ & _ & _ & Hrun).
  - intros comp_id seas_id. simpl.
    destruct ((comp_id =? 2) && (seas_id =? 27)); repeat constructor.
  - eexists. split; [reflexivity | apply Hrun; reflexivity].
Defined.

(** ** The overall plot and its six runs *)

Lemma for_each_all_Ok {A B : Type} (f : A -> result B) (l : list A) :
  Forall (fun a => exists b, f a = Ok b) l -> exists bs, for_each f l = Ok bs.
Proof.
  induction 1 as [|a l [b Hb] _ [bs IH]]; simpl; [now exists [] |].
  rewrite Hb, IH. simpl. now exists (b :: bs).
Qed.

Lemma for_each_Ok_each {A B : Type} (f : A -> result B) (l : list A) (bs : list B) :
  for_each f l = Ok bs -> Forall (fun a => exists b, f a = Ok b) l.
Proof.
  intros Hrun. apply for_each_Ok in Hrun.
  induction Hrun as [|a b l bs Hab _ IH]; constructor; [now exists b | exact IH].
Qed.

Lemma for_each_raises {A B : Type} (f : A -> result B) (l : list A) (a : A)
      (e : exception) :
  In a l -> f a = Raise e -> exists e', for_each f l = Raise e'.
Proof.
  intros Hin Ha. induction l as [|x l IH]; [contradiction |]. simpl.
  destruct Hin as [-> | Hin].
  - rewrite Ha. simpl. now exists e.
  - destruct (f x) as [b|e1]; simpl; [| now exists e1].
    destruct (IH Hin) as [e' ->]. simpl. now exists e'.
Qed.

Lemma pooled_of_groups (frames : list LabelledFrame) :
  let groups := map (fun f => (points_of_group 1 (frame_labels f) (frame_points f),
                               points_of_group 0 (frame_labels f) (frame_points f)))
                    frames in
  concat (map fst groups) = pooled 1 frames /\
  concat (map snd groups) = pooled 0 frames.
Proof.
  unfold pooled. cbv zeta. rewrite !map_map, !flat_map_concat_map. split; reflexivity.
Qed.

Lemma choose_title_nan : choose_title None = Raise (UnboundLocalError "hypothesis_title").
Proof. reflexivity. Qed.

Lemma choose_title_number (p : Q) :
  choose_title (Some p) = Ok (float_lt (Some p) (Some alpha)).
Proof.
  unfold choose_title, float_lt, float_ge.
  now destruct (Qcompare p alpha).
Qed.

(** X16: the overall plot ends in one of four ways.  If the run of any of
    the six teams raises, the plot raises and nothing is reported for the
    other teams; a chart is only ever produced when all six runs returned.
    When they all return: if no match at all carries one of the two labels
    the plot raises [UnboundLocalError] for [color_list]; if both groups
    have matches and the p-value is nan it raises [UnboundLocalError] for
    [hypothesis_title]; otherwise the chart is produced. *)
Theorem overall_chart_needs_all_six_runs (ttest_ind : list Z -> list Z -> option Q)
        (sb : StatsBomb) :
  (forall c e, In c managerial_changes -> run_change sb c = Raise e ->
               exists e', plot_overall_points_per_game_diff ttest_ind sb = Raise e') /\
  ((exists chart, plot_overall_points_per_game_diff ttest_ind sb = Ok chart) ->
   Forall (fun c => exists df, run_change sb c = Ok df) managerial_changes) /\
  (Forall (fun c => exists df, run_change sb c = Ok df) managerial_changes ->
   exists frames : list LabelledFrame,
     Forall2 (fun c f => run_change sb c = Ok (frame f) /\
                         labelled (frame f) (frame_labels f) (frame_points f))
             managerial_changes frames /\
     (pooled 1 frames = [] \/ pooled 0 frames = [] ->
      plot_overall_points_per_game_diff ttest_ind sb =
        Raise (UnboundLocalError "color_list")) /\
     (pooled 1 frames <> [] -> pooled 0 frames <> [] ->
      ttest_ind (pooled 1 frames) (pooled 0 frames) = None ->
      plot_overall_points_per_game_diff ttest_ind sb =
        Raise (UnboundLocalError "hypothesis_title")) /\
     (pooled 1 frames <> [] -> pooled 0 frames <> [] ->
      ttest_ind (pooled 1 frames) (pooled 0 frames) <> None ->
      exists chart, plot_overall_points_per_game_diff ttest_ind sb = Ok chart)).
Proof.
  assert (Hcounts : Forall (fun c => hired_managers c = 1 \/ hired_managers c = 2)
                           managerial_changes).
  { unfold managerial_changes. repeat constructor; simpl; lia. }
  unfold plot_overall_points_per_game_diff.
  generalize dependent managerial_changes. intros changes Hcounts.
  set (f := fun c : ManagerialChange =>
              matches <- run_change sb c ;;
              points_bounce <- points_where matches 1 ;;
              points_no_bounce <- points_where matches 0 ;;
              Ok (points_bounce, points_no_bounce)).
  split; [| split].
  - intros c e Hc He.
    destruct (for_each_raises f changes c e Hc) as [e' ->]; [| cbn [bind]; eauto].
    unfold f. now rewrite He.
  - intros [chart Hplot].
    destruct (for_each f changes) as [groups|e] eqn:Hgroups; [| discriminate].
    apply for_each_Ok_each in Hgroups.
    eapply Forall_impl; [| exact Hgroups].
    intros c [g Hg]. unfold f in Hg.
    destruct (run_change sb c) as [df|e]; [now exists df | discriminate].
  - intros Hall.
    assert (Hf : Forall (fun c => exists g, f c = Ok g) changes).
    { rewrite Forall_forall in *. intros c Hc.
      destruct (Hall c Hc) as [df Hdf].
      destruct (run_labelled _ _ _ _ _ _ _ (Hcounts c Hc) Hdf)
        as (labels & points & Hlabelled).
      unfold f. rewrite Hdf. cbn [bind].
      rewrite !(points_where_labelled df labels points) by exact Hlabelled.
      cbn [bind]. eauto. }
    destruct (for_each_all_Ok f changes Hf) as [groups Hgroups].
    rewrite Hgroups. cbn [bind].
    apply for_each_Ok in Hgroups.
    destruct (labelled_frames sb changes groups Hcounts Hgroups) as (frames & Hframes & ->).
    destruct (pooled_of_groups frames) as [-> ->].
    exists frames. split; [exact Hframes | split; [| split]].
    + intros Hempty. rewrite choose_colors_nan; [reflexivity |].
      destruct Hempty as [-> | ->]; [left | right]; reflexivity.
    + intros Hb Ho Hnan.
      destruct (np_mean (pooled 1 frames)) as [qb|] eqn:Hqb;
        [| apply np_mean_None in Hqb; contradiction].
      destruct (np_mean (pooled 0 frames)) as [qn|] eqn:Hqn;
        [| apply np_mean_None in Hqn; contradiction].
      destruct (choose_colors_numbers qb qn) as (colors & -> & _).
      cbn [bind]. now rewrite Hnan, choose_title_nan.
    + intros Hb Ho Hp.
      destruct (np_mean (pooled 1 frames)) as [qb|] eqn:Hqb;
        [| apply np_mean_None in Hqb; contradiction].
      destruct (np_mean (pooled 0 frames)) as [qn|] eqn:Hqn;
        [| apply np_mean_None in Hqn; contradiction].
      destruct (choose_colors_numbers qb qn) as (colors & -> & _).
      cbn [bind].
      destruct (ttest_ind _ _) as [p|]; [| congruence].
      rewrite choose_title_number. cbn [bind]. eauto.
Qed.

Lemma overall_chart_needs_all_six_runs_example :
  (exists e,
     plot_overall_points_per_game_diff sample_ttest_ind (sample_provider sample_season)
       = Raise e) /\
  plot_overall_points_per_game_diff (fun _ _ => None) (sample_provider sample_six_teams) =
    Raise (UnboundLocalError "hypothesis_title").
Proof.
  split.
  - destruct (overall_chart_needs_all_six_runs sample_ttest_ind
                (sample_provider sample_season)) as [Hraise _].
    apply (Hraise (mkChange "Liverpool" 20151009 default_second_manager_hire_date 1)
                  IndexError).
    + right. now left.
    + reflexivity.
  - vm_compute. reflexivity.
Defined.

(** ** The pipeline from fetched data to labelled frame *)

Lemma filter_map_length {A B : Type} (f : A -> B) (p : B -> bool) (l : list A) :
  length (filter p (map f l)) = length (filter (fun a => p (f a)) l).
Proof.
  induction l as [|a l IH]; simpl; [reflexivity |].
  destruct (p (f a)); simpl; now rewrite IH.
Qed.

Lemma existsb_over_map {A B : Type} (f : A -> B) (p : B -> bool) (l : list A) :
  existsb p (map f l) = existsb (fun a => p (f a)) l.
Proof. induction l as [|a l IH]; simpl; [reflexivity | now rewrite IH]. Qed.

Lemma existsb_pointwise {A : Type} (p q : A -> bool) (l : list A) :
  (forall a, p a = q a) -> existsb p l = existsb q l.
Proof. intros H. induction l as [|a l IH]; simpl; [reflexivity | now rewrite H, IH]. Qed.

Lemma existsb_Permutation {A : Type} (p : A -> bool) (l m : list A) :
  Permutation l m -> existsb p l = existsb p m.
Proof.
  intros Hperm. apply eq_true_iff_eq. rewrite !existsb_exists.
  split; intros (x & Hx & Hp); exists x; split; try assumption.
  - now apply (Permutation_in _ Hperm).
  - now apply (Permutation_in _ (Permutation_sym Hperm)).
Qed.

(** X17: the single-hire pipeline end to end.  When the season is found, the
    team never plays twice on a day and at least [N] of its matches are
    dated after the hire date, the pipeline returns a frame that holds the
    team's fetched matches, each once, in strictly increasing date order,
    with both derived columns filled for every row, and with [N] matches
    marked as bounce, or [N + 1] when the team played on the hire date. *)
Theorem single_hire_pipeline_returns (sb : StatsBomb) (team_name : string)
        (hire second : Timestamp) (N : Z) (c : Competition) :
  find (is_league_season "Premier League" "2015/2016") (competitions sb) = Some c ->
  let team_rows :=
    filter (plays team_name) (rows (matches sb (competition_id c) (season_id c))) in
  NoDup (map date_of team_rows) ->
  1 <= N <= Z.of_nat (length (filter (fun r => hire <? date_of r) team_rows)) ->
  exists df labels points,
    add_manager_change_and_points_won_columns_to_df sb team_name hire second 1 N = Ok df /\
    Permutation (rows df) team_rows /\
    chronological (col_match_date df) /\
    labelled df labels points /\
    Z.of_nat (count_label 1 labels) =
      N + (if existsb (fun r => date_of r =? hire) team_rows then 1 else 0).
Proof.
  intros Hfind team_rows Hdistinct HN.
  destruct (extractor_sorts_team_matches sb "Premier League" "2015/2016" team_name c Hfind)
    as (d & Hextract & Hperm & _ & _ & Hchrono).
  fold team_rows in Hperm, Hchrono. specialize (Hchrono Hdistinct).
  assert (Hafter : length (strictly_after hire (col_match_date d)) =
                   length (filter (fun r => hire <? date_of r) team_rows)).
  { unfold strictly_after, col_match_date.
    rewrite (filter_map_length (fun r => match_date (snd r)) (fun x => hire <? x)).
    apply Permutation_length.
    exact (Permutation_filter (fun r => hire <? date_of r) _ _ Hperm). }
  destruct (single_hire_window d hire second N Hchrono) as (df' & Hrun & Hcol & Hcount);
    [rewrite Hafter; exact HN |].
  assert (Hshape := add_managerial_change_shape _ _ _ _ _ _ Hrun).
  destruct Hshape as [[_ (labels & Hlen & ->)] | (H1 & _)]; [| lia].
  rewrite get_set_column_eq in Hcol. injection Hcol as Hlabels.
  set (df' := set_column d "is_manager_bounce" labels) in *.
  destruct (add_points_frame df' team_name) as (Hrows & Hother & _).
  exists (add_points_from_match_column df' team_name), labels,
         (points_column team_name (rows d)).
  split; [| split; [| split; [| split]]].
  - unfold add_manager_change_and_points_won_columns_to_df.
    rewrite Hextract. cbn [bind]. rewrite Hrun. reflexivity.
  - rewrite Hrows. exact Hperm.
  - unfold col_match_date. rewrite Hrows. exact Hchrono.
  - unfold labelled, len. rewrite Hrows. repeat split.
    + rewrite Hother by discriminate. apply get_set_column_eq.
    + exact (add_points_column df' team_name).
    + exact Hlen.
    + apply points_column_length.
  - rewrite Hlabels, Hcount. f_equal.
    unfold in_window, col_match_date. rewrite existsb_over_map.
    rewrite (existsb_Permutation _ _ _ Hperm).
    rewrite (existsb_pointwise _ (fun r => date_of r =? hire)); [reflexivity |].
    intros r. apply Z.eqb_sym.
Qed.

Lemma single_hire_pipeline_returns_example :
  exists df labels,
    add_manager_change_and_points_won_columns_to_df (sample_provider sample_season)
      "Sunderland" 20151009 default_second_manager_hire_date 1 5 = Ok df /\
    get_column (columns df) "is_manager_bounce" = Some labels /\
    count_label 1 labels = 5%nat.
Proof.
  destruct (single_hire_pipeline_returns (sample_provider sample_season) "Sunderland"
              20151009 default_second_manager_hire_date 5
              (mkCompetition 2 27 "Premier League" "2015/2016") eq_refl)
    as (df & labels & points & Hrun & _ & _ & (Hcol & _) & Hcount).
  - simpl. distinct_labels.
  - simpl. lia.
  - exists df, labels. split; [exact Hrun | split; [exact Hcol |]].
    simpl in Hcount. lia.
Defined.

(** X18: when several competition rows carry the league and season names,
    the loader takes both identifiers from the first of them; it returns the
    matches the provider holds under these identifiers, each row once, in
    ascending date order, with every column still as long as the frame. *)
Theorem loader_returns_first_competition_sorted (sb : StatsBomb) (league season : string)
        (c : Competition) :
  find (is_league_season league season) (competitions sb) = Some c ->
  let fetched := matches sb (competition_id c) (season_id c) in
  exists df,
    SB_load_matches_from_season sb league season = Ok df /\
    Permutation (rows df) (rows fetched) /\
    StronglySorted Z.le (col_match_date df) /\
    map fst (columns df) = map fst (columns fetched) /\
    (well_formed fetched -> well_formed df).
Proof.
  intros Hfind fetched. rewrite load_by_first_match, Hfind. fold fetched.
  exists (sort_values_by_match_date fetched).
  destruct (sort_values_permutes_and_sorts fetched) as [Hperm Hsorted].
  split; [reflexivity | split; [exact Hperm | split; [exact Hsorted | split]]].
  - unfold sort_values_by_match_date. cbn [columns]. rewrite map_map. reflexivity.
  - apply well_formed_sort_values.
Qed.

Lemma loader_returns_first_competition_sorted_example :
  exists df,
    SB_load_matches_from_season
      {| competitions := [ mkCompetition 9 27 "Bundesliga" "2015/2016";
                           mkCompetition 2 27 "Premier League" "2015/2016";
                           mkCompetition 2 44 "Premier League" "2015/2016" ];
         matches := matches (sample_provider sample_season) |}
      "Premier League" "2015/2016" = Ok df /\
    Permutation (rows df) (rows sample_season).
Proof.
  destruct (loader_returns_first_competition_sorted
              {| competitions := [ mkCompetition 9 27 "Bundesliga" "2015/2016";
                                   mkCompetition 2 27 "Premier League" "2015/2016";
                                   mkCompetition 2 44 "Premier League" "2015/2016" ];
                 matches := matches (sample_provider sample_season) |}
              "Premier League" "2015/2016"
              (mkCompetition 2 27 "Premier League" "2015/2016") eq_refl)
    as (df & Hload & Hperm & _).
  exists df. split; [exact Hload | exact Hperm].
Defined.

Lemma pooled_groups_of_runs (sb : StatsBomb) (changes : list ManagerialChange)
      (groups : list (list Z * list Z)) :
  Forall (fun c => hired_managers c = 1 \/ hired_managers c = 2) changes ->
  Forall2 (fun c g =>
             (matches <- run_change sb c ;;
              points_bounce <- points_where matches 1 ;;
              points_no_bounce <- points_where matches 0 ;;
              Ok (points_bounce, points_no_bounce)) = Ok g)
          changes groups ->
  exists frames,
    Forall2 (fun c df => run_change sb c = Ok df) changes frames /\
    (length (concat (map fst groups)) + length (concat (map snd groups)) =
     list_sum (map len frames))%nat /\
    Forall (fun p => p = 0 \/ p = 1 \/ p = 3) (concat (map fst groups)) /\
    Forall (fun p => p = 0 \/ p = 1 \/ p = 3) (concat (map snd groups)).
Proof.
  intros Hcounts Hruns. induction Hruns as [|c g changes groups Hrun _ IH].
  - exists []. repeat split; constructor.
  - apply Forall_cons_iff in Hcounts. destruct Hcounts as [Hc Hcounts].
    destruct (IH Hcounts) as (frames & Hframes & Hsizes & Hb & Hnb).
    destruct (run_change sb c) as [df|e] eqn:Hdf; simpl in Hrun; [| discriminate].
    destruct (run_labelled_in_range _ _ _ _ _ _ _ Hc Hdf)
      as (labels & points & Hlabelled & Hbinary & Hrange).
    rewrite !(points_where_labelled df labels points) in Hrun by exact Hlabelled.
    simpl in Hrun. injection Hrun as <-.
    destruct Hlabelled as (_ & _ & Hl1 & Hl2).
    exists (df :: frames). simpl.
    split; [constructor; [exact Hdf | exact Hframes] |].
    split; [| split; apply Forall_app; split; try assumption;
              now apply points_of_group_range].
    rewrite !length_app, !points_of_group_length by congruence.
    assert (Hsplit := binary_labels_split labels Hbinary). lia.
Qed.

(** X19: when the overall chart is drawn, every match of the six returned
    frames is counted in exactly one of the two bars, and each bar height
    lies between 0 and 3. *)
Theorem overall_chart_counts_every_match_once (ttest_ind : list Z -> list Z -> option Q)
        (sb : StatsBomb) (chart : Chart) :
  plot_overall_points_per_game_diff ttest_ind sb = Ok chart ->
  exists frames,
    Forall2 (fun c df => run_change sb c = Ok df) managerial_changes frames /\
    (fst (n_matches chart) + snd (n_matches chart) = list_sum (map len frames))%nat /\
    (forall q, fst (bar_heights chart) = Some q \/ snd (bar_heights chart) = Some q ->
               (0 <= q <= 3)%Q).
Proof.
  intros Hplot.
  destruct (overall_plot_Ok _ _ _ Hplot) as (groups & Hgroups & Hheights & Hn).
  assert (Hcounts : Forall (fun c => hired_managers c = 1 \/ hired_managers c = 2)
                           managerial_changes).
  { unfold managerial_changes. repeat constructor; simpl; lia. }
  destruct (pooled_groups_of_runs sb managerial_changes groups Hcounts Hgroups)
    as (frames & Hframes & Hsizes & Hb & Hnb).
  exists frames. rewrite Hheights, Hn. cbn [fst snd].
  split; [exact Hframes | split; [exact Hsizes |]].
  intros q [Hq | Hq]; eapply np_mean_range; try exact Hq; assumption.
Qed.

Lemma overall_chart_counts_every_match_once_example :
  exists frames,
    Forall2 (fun c df => run_change (sample_provider sample_six_teams) c = Ok df)
            managerial_changes frames /\
    list_sum (map len frames) = 48%nat.
Proof.
  assert (Hplot : plot_overall_points_per_game_diff sample_ttest_ind
                    (sample_provider sample_six_teams) =
                  Ok sample_overall_chart) by (vm_compute; reflexivity).
  destruct (overall_chart_counts_every_match_once _ _ _ Hplot)
    as (frames & Hruns & Hsum & _).
  exists frames. split; [exact Hruns |]. rewrite <- Hsum. reflexivity.
Defined.
